(** * WebRtcPassThroughVideoDecoder: the pass-through encoded-frame decode bridge

    A shallow embedding of
    [media/webrtc/neva/webrtc_pass_through_video_decoder.cc]: the member
    functions of [WebRtcPassThroughVideoDecoder] become functions on a record
    of the object's fields.  The calls the object makes on its surroundings
    (posting [DecodeOnMediaThread] on the main task runner, invoking the
    registered [DecodedImageCallback]) are kept as two trace fields of the
    same record. *)

From Stdlib Require Import ZArith List Bool Lia.
From Stdlib Require String.
Import ListNotations.
Open Scope Z_scope.

(** ** Types of the surrounding libraries *)

Module webrtc.

Inductive VideoCodecType :=
| kVideoCodecGeneric
| kVideoCodecVP8
| kVideoCodecVP9
| kVideoCodecAV1
| kVideoCodecH264
| kVideoCodecMultiplex.

Inductive VideoFrameType :=
| kEmptyFrame
| kVideoFrameKey
| kVideoFrameDelta.

(** The codec settings handed to [InitDecode]; only [codecType] is read. *)
Record VideoCodec := { codecType : VideoCodecType }.

(** The fields and accessors of [webrtc::EncodedImage] that [Decode] reads. *)
Record EncodedImage := {
  _frameType : VideoFrameType;
  _completeFrame : bool;
  _encodedWidth : Z;
  _encodedHeight : Z;
  Timestamp : Z;
  SpatialIndex : option Z;
  data : list Byte.byte
}.

(** Return codes of [video_error_codes.h]. *)
Inductive ReturnCode :=
| WEBRTC_VIDEO_CODEC_OK
| WEBRTC_VIDEO_CODEC_NO_OUTPUT
| WEBRTC_VIDEO_CODEC_ERROR
| WEBRTC_VIDEO_CODEC_ERR_PARAMETER
| WEBRTC_VIDEO_CODEC_UNINITIALIZED
| WEBRTC_VIDEO_CODEC_FALLBACK_SOFTWARE.

Definition VideoCodecType_eqb (a b : VideoCodecType) : bool :=
  match a, b with
  | kVideoCodecGeneric, kVideoCodecGeneric
  | kVideoCodecVP8, kVideoCodecVP8
  | kVideoCodecVP9, kVideoCodecVP9
  | kVideoCodecAV1, kVideoCodecAV1
  | kVideoCodecH264, kVideoCodecH264
  | kVideoCodecMultiplex, kVideoCodecMultiplex => true
  | _, _ => false
  end.

Definition VideoFrameType_eqb (a b : VideoFrameType) : bool :=
  match a, b with
  | kEmptyFrame, kEmptyFrame
  | kVideoFrameKey, kVideoFrameKey
  | kVideoFrameDelta, kVideoFrameDelta => true
  | _, _ => false
  end.

End webrtc.

Module gfx.

(** Modelled from the spec: [gfx::Size] ([ui/gfx/geometry/size.h]) is not
    among the sources.  The spec has the coded dimensions of a key frame
    recorded as the active frame size, so a size is a pair of integers and
    its setters store the value they are given. *)
Record Size := { width : Z; height : Z }.

Definition set_width (s : Size) (w : Z) : Size :=
  {| width := w; height := height s |}.

Definition set_height (s : Size) (h : Z) : Size :=
  {| width := width s; height := h |}.

End gfx.

Module media.

Inductive VideoCodec :=
| kUnknownVideoCodec
| kCodecH264
| kCodecVP8
| kCodecVP9.

(** The encoded frame built by [Decode]: the wrapped data with its coded
    size and timestamp, and the two metadata entries [Decode] sets. *)
Record VideoFrame := {
  coded_size : gfx.Size;
  frame_data : list Byte.byte;
  timestamp : Z;
  KEY_FRAME : bool;
  CODEC_ID : VideoCodec
}.

(** [VideoFrameMetadata::StatusType]: the two values
    [OnMediaPlayerNotifyCb] acts on, and any other value. *)
Inductive StatusType :=
| kPipelineError
| kKeyFrameRequest
| kOtherStatus.

End media.

Import webrtc.

(** The frame passed to [DecodedImageCallback::Decoded]. *)
Record RtcVideoFrame := {
  video_frame_buffer : media.VideoFrame;
  timestamp_rtp : Z;
  timestamp_us : Z
}.

(** A [DecodedImageCallback*]; the null pointer is [None]. *)
Definition DecodedImageCallback := nat.

(** ** Constants *)

Definition kMaxPendingFrames : nat := 8.
Definition kMaxDecodeHistory : nat := 32.
Definition kMaxConsecutiveErrors : Z := 60.

Definition ToVideoCodec (webrtc_codec : VideoCodecType) : media.VideoCodec :=
  match webrtc_codec with
  | kVideoCodecVP8 => media.kCodecVP8
  | kVideoCodecVP9 => media.kCodecVP9
  | kVideoCodecH264 => media.kCodecH264
  | _ => media.kUnknownVideoCodec
  end.

(** ** 32-bit arithmetic *)

Definition INT32_MAX : Z := 2147483647.

(** Two's-complement reduction to the range of [int32_t]. *)
Definition wrap_int32 (z : Z) : Z := (z + 2 ^ 31) mod 2 ^ 32 - 2 ^ 31.

(** [static_cast<uint32_t>]. *)
Definition cast_uint32 (z : Z) : Z := z mod 2 ^ 32.

(** ** The decoder object *)

Record Decoder := {
  video_codec_ : media.VideoCodec;
  video_codec_type_ : VideoCodecType;
  media_decoder_available_ : bool;
  key_frame_required_ : bool;
  frame_size_ : gfx.Size;
  consecutive_error_count_ : Z;
  pending_frames_ : list media.VideoFrame;
  decode_timestamps_ : list Z;
  decode_complete_callback_ : option DecodedImageCallback;
  (* number of DecodeOnMediaThread tasks posted on main_task_runner_ and
     not yet run *)
  posted_tasks : nat;
  (* the calls decode_complete_callback_->Decoded(...) made so far,
     oldest first *)
  decoded_calls : list (DecodedImageCallback * RtcVideoFrame)
}.

Definition set_video_codec_type (s : Decoder) (v : VideoCodecType) : Decoder :=
  {| video_codec_ := video_codec_ s;
     video_codec_type_ := v;
     media_decoder_available_ := media_decoder_available_ s;
     key_frame_required_ := key_frame_required_ s;
     frame_size_ := frame_size_ s;
     consecutive_error_count_ := consecutive_error_count_ s;
     pending_frames_ := pending_frames_ s;
     decode_timestamps_ := decode_timestamps_ s;
     decode_complete_callback_ := decode_complete_callback_ s;
     posted_tasks := posted_tasks s;
     decoded_calls := decoded_calls s |}.

Definition set_media_decoder_available (s : Decoder) (v : bool) : Decoder :=
  {| video_codec_ := video_codec_ s;
     video_codec_type_ := video_codec_type_ s;
     media_decoder_available_ := v;
     key_frame_required_ := key_frame_required_ s;
     frame_size_ := frame_size_ s;
     consecutive_error_count_ := consecutive_error_count_ s;
     pending_frames_ := pending_frames_ s;
     decode_timestamps_ := decode_timestamps_ s;
     decode_complete_callback_ := decode_complete_callback_ s;
     posted_tasks := posted_tasks s;
     decoded_calls := decoded_calls s |}.

Definition set_key_frame_required (s : Decoder) (v : bool) : Decoder :=
  {| video_codec_ := video_codec_ s;
     video_codec_type_ := video_codec_type_ s;
     media_decoder_available_ := media_decoder_available_ s;
     key_frame_required_ := v;
     frame_size_ := frame_size_ s;
     consecutive_error_count_ := consecutive_error_count_ s;
     pending_frames_ := pending_frames_ s;
     decode_timestamps_ := decode_timestamps_ s;
     decode_complete_callback_ := decode_complete_callback_ s;
     posted_tasks := posted_tasks s;
     decoded_calls := decoded_calls s |}.

Definition set_frame_size (s : Decoder) (v : gfx.Size) : Decoder :=
  {| video_codec_ := video_codec_ s;
     video_codec_type_ := video_codec_type_ s;
     media_decoder_available_ := media_decoder_available_ s;
     key_frame_required_ := key_frame_required_ s;
     frame_size_ := v;
     consecutive_error_count_ := consecutive_error_count_ s;
     pending_frames_ := pending_frames_ s;
     decode_timestamps_ := decode_timestamps_ s;
     decode_complete_callback_ := decode_complete_callback_ s;
     posted_tasks := posted_tasks s;
     decoded_calls := decoded_calls s |}.

Definition set_consecutive_error_count (s : Decoder) (v : Z) : Decoder :=
  {| video_codec_ := video_codec_ s;
     video_codec_type_ := video_codec_type_ s;
     media_decoder_available_ := media_decoder_available_ s;
     key_frame_required_ := key_frame_required_ s;
     frame_size_ := frame_size_ s;
     consecutive_error_count_ := v;
     pending_frames_ := pending_frames_ s;
     decode_timestamps_ := decode_timestamps_ s;
     decode_complete_callback_ := decode_complete_callback_ s;
     posted_tasks := posted_tasks s;
     decoded_calls := decoded_calls s |}.

Definition set_pending_frames (s : Decoder) (v : list media.VideoFrame) : Decoder :=
  {| video_codec_ := video_codec_ s;
     video_codec_type_ := video_codec_type_ s;
     media_decoder_available_ := media_decoder_available_ s;
     key_frame_required_ := key_frame_required_ s;
     frame_size_ := frame_size_ s;
     consecutive_error_count_ := consecutive_error_count_ s;
     pending_frames_ := v;
     decode_timestamps_ := decode_timestamps_ s;
     decode_complete_callback_ := decode_complete_callback_ s;
     posted_tasks := posted_tasks s;
     decoded_calls := decoded_calls s |}.

Definition set_decode_timestamps (s : Decoder) (v : list Z) : Decoder :=
  {| video_codec_ := video_codec_ s;
     video_codec_type_ := video_codec_type_ s;
     media_decoder_available_ := media_decoder_available_ s;
     key_frame_required_ := key_frame_required_ s;
     frame_size_ := frame_size_ s;
     consecutive_error_count_ := consecutive_error_count_ s;
     pending_frames_ := pending_frames_ s;
     decode_timestamps_ := v;
     decode_complete_callback_ := decode_complete_callback_ s;
     posted_tasks := posted_tasks s;
     decoded_calls := decoded_calls s |}.

Definition set_decode_complete_callback (s : Decoder)
    (v : option DecodedImageCallback) : Decoder :=
  {| video_codec_ := video_codec_ s;
     video_codec_type_ := video_codec_type_ s;
     media_decoder_available_ := media_decoder_available_ s;
     key_frame_required_ := key_frame_required_ s;
     frame_size_ := frame_size_ s;
     consecutive_error_count_ := consecutive_error_count_ s;
     pending_frames_ := pending_frames_ s;
     decode_timestamps_ := decode_timestamps_ s;
     decode_complete_callback_ := v;
     posted_tasks := posted_tasks s;
     decoded_calls := decoded_calls s |}.

Definition set_posted_tasks (s : Decoder) (v : nat) : Decoder :=
  {| video_codec_ := video_codec_ s;
     video_codec_type_ := video_codec_type_ s;
     media_decoder_available_ := media_decoder_available_ s;
     key_frame_required_ := key_frame_required_ s;
     frame_size_ := frame_size_ s;
     consecutive_error_count_ := consecutive_error_count_ s;
     pending_frames_ := pending_frames_ s;
     decode_timestamps_ := decode_timestamps_ s;
     decode_complete_callback_ := decode_complete_callback_ s;
     posted_tasks := v;
     decoded_calls := decoded_calls s |}.

Definition set_decoded_calls (s : Decoder)
    (v : list (DecodedImageCallback * RtcVideoFrame)) : Decoder :=
  {| video_codec_ := video_codec_ s;
     video_codec_type_ := video_codec_type_ s;
     media_decoder_available_ := media_decoder_available_ s;
     key_frame_required_ := key_frame_required_ s;
     frame_size_ := frame_size_ s;
     consecutive_error_count_ := consecutive_error_count_ s;
     pending_frames_ := pending_frames_ s;
     decode_timestamps_ := decode_timestamps_ s;
     decode_complete_callback_ := decode_complete_callback_ s;
     posted_tasks := posted_tasks s;
     decoded_calls := v |}.

(** ** Member functions *)

Definition value_or {A : Type} (o : option A) (d : A) : A :=
  match o with
  | Some v => v
  | None => d
  end.

Definition is_key_frame (input_image : EncodedImage) : bool :=
  VideoFrameType_eqb (_frameType input_image) kVideoFrameKey.

(** [base::Contains(decode_timestamps_, timestamp)]. *)
Definition Contains (l : list Z) (t : Z) : bool := existsb (Z.eqb t) l.

Definition InitDecode (s : Decoder) (codec_settings : option webrtc.VideoCodec)
    (number_of_cores : Z) : Decoder * ReturnCode :=
  match codec_settings with
  | None => (s, WEBRTC_VIDEO_CODEC_ERR_PARAMETER)
  | Some settings =>
      (* Always start with a complete key frame. *)
      let s1 := set_key_frame_required s true in
      let s2 := set_video_codec_type s1 (codecType settings) in
      (s2, if media_decoder_available_ s2 then WEBRTC_VIDEO_CODEC_OK
           else WEBRTC_VIDEO_CODEC_UNINITIALIZED)
  end.

(** The frame [Decode] builds with [WrapExternalData] and then tags. *)
Definition make_encoded_frame (s : Decoder) (input_image : EncodedImage)
    (key_frame : bool) : media.VideoFrame :=
  {| media.coded_size := frame_size_ s;
     media.frame_data := data input_image;
     media.timestamp := Timestamp input_image;
     media.KEY_FRAME := key_frame;
     media.CODEC_ID := video_codec_ s |}.

(** The block of [Decode] that runs under [lock_].  [Some rc] is an early
    return of [rc] from [Decode]; [None] falls through to the [PostTask]. *)
Definition queue_for_decoding (s : Decoder) (encoded_frame : media.VideoFrame)
    : Decoder * option ReturnCode :=
  if (kMaxPendingFrames <=? length (pending_frames_ s))%nat then
    (* We are severely behind. Drop pending frames and request a keyframe. *)
    let s1 := set_pending_frames s [] in
    let s2 := set_key_frame_required s1 true in
    let s3 := set_consecutive_error_count s2
                (wrap_int32 (consecutive_error_count_ s2 + 1)) in
    if kMaxConsecutiveErrors <? consecutive_error_count_ s3 then
      (set_decode_timestamps s3 [], Some WEBRTC_VIDEO_CODEC_FALLBACK_SOFTWARE)
    else
      (s3, Some WEBRTC_VIDEO_CODEC_ERROR)
  else
    (set_pending_frames s (pending_frames_ s ++ [encoded_frame]), None).

Section WithVideoFrameFactory.

(** Whether [media::VideoFrame::WrapExternalData], called with the given
    size for coded size, visible rectangle and natural size and with the
    data of the given image, returns a frame (rather than null). *)
Variable WrapExternalData_ok : gfx.Size -> EncodedImage -> bool.

Definition Decode (s : Decoder) (input_image : EncodedImage)
    (missing_frames : bool) (render_time_ms : Z) : Decoder * ReturnCode :=
  if negb (media_decoder_available_ s) then
    (s, WEBRTC_VIDEO_CODEC_FALLBACK_SOFTWARE)
  else if VideoCodecType_eqb (video_codec_type_ s) kVideoCodecVP9
          && (0 <? value_or (SpatialIndex input_image) 0) then
    (s, WEBRTC_VIDEO_CODEC_FALLBACK_SOFTWARE)
  else if missing_frames || negb (_completeFrame input_image) then
    (s, WEBRTC_VIDEO_CODEC_ERROR)
  else if key_frame_required_ s && negb (is_key_frame input_image) then
    (s, WEBRTC_VIDEO_CODEC_ERROR)
  else
    let s1 := if key_frame_required_ s
              then set_key_frame_required s false else s in
    let key_frame := is_key_frame input_image in
    let s2 := if key_frame
              then set_frame_size s1
                     (gfx.set_height
                        (gfx.set_width (frame_size_ s1)
                           (_encodedWidth input_image))
                        (_encodedHeight input_image))
              else s1 in
    if negb (WrapExternalData_ok (frame_size_ s2) input_image) then
      (s2, WEBRTC_VIDEO_CODEC_NO_OUTPUT)
    else
      let encoded_frame := make_encoded_frame s2 input_image key_frame in
      match queue_for_decoding s2 encoded_frame with
      | (s3, Some rc) => (s3, rc)
      | (s3, None) =>
          (set_posted_tasks s3 (S (posted_tasks s3)), WEBRTC_VIDEO_CODEC_OK)
      end.

End WithVideoFrameFactory.

Definition RegisterDecodeCompleteCallback (s : Decoder)
    (callback : option DecodedImageCallback) : Decoder * ReturnCode :=
  let s1 := set_decode_complete_callback s callback in
  (s1, if media_decoder_available_ s1 then WEBRTC_VIDEO_CODEC_OK
       else WEBRTC_VIDEO_CODEC_UNINITIALIZED).

Definition Release (s : Decoder) : Decoder * ReturnCode :=
  let s1 := set_pending_frames s [] in
  let s2 := set_decode_timestamps s1 [] in
  (s2, if media_decoder_available_ s2 then WEBRTC_VIDEO_CODEC_OK
       else WEBRTC_VIDEO_CODEC_UNINITIALIZED).

(** [while (decode_timestamps_.size() >= kMaxDecodeHistory) pop_front();] *)
Fixpoint evict_oldest (h : list Z) : list Z :=
  match h with
  | [] => []
  | t :: rest =>
      if (kMaxDecodeHistory <=? S (length rest))%nat
      then evict_oldest rest
      else t :: rest
  end.

(** "Record the timestamp": the eviction loop and the [push_back]. *)
Definition record_timestamp (s : Decoder) (t : Z) : Decoder :=
  set_decode_timestamps s (evict_oldest (decode_timestamps_ s) ++ [t]).

Definition make_rtc_frame (encoded_frame : media.VideoFrame) : RtcVideoFrame :=
  {| video_frame_buffer := encoded_frame;
     timestamp_rtp := cast_uint32 (media.timestamp encoded_frame);
     timestamp_us := 0 |}.

(** [None] is the call through a null [decode_complete_callback_]. *)
Definition ReturnEncodedFrame (s : Decoder) (encoded_frame : media.VideoFrame)
    : option Decoder :=
  let timestamp := media.timestamp encoded_frame in
  let rtc_frame := make_rtc_frame encoded_frame in
  if negb (Contains (decode_timestamps_ s) timestamp) then
    Some s
  else
    match decode_complete_callback_ s with
    | None => None
    | Some callback =>
        let s1 := set_decoded_calls s
                    (decoded_calls s ++ [(callback, rtc_frame)]) in
        Some (set_consecutive_error_count s1 0)
    end.

(** The loop of [DecodeOnMediaThread] over the swapped-out queue. *)
Fixpoint drain_loop (pending_frames : list media.VideoFrame) (s : Decoder)
    : option Decoder :=
  match pending_frames with
  | [] => Some s
  | pending_frame :: rest =>
      let s1 := record_timestamp s (media.timestamp pending_frame) in
      match ReturnEncodedFrame s1 pending_frame with
      | Some s2 => drain_loop rest s2
      | None => None
      end
  end.

Definition DecodeOnMediaThread (s : Decoder) : option Decoder :=
  let pending_frames := pending_frames_ s in
  let s1 := set_pending_frames s [] in
  drain_loop pending_frames s1.

Definition OnMediaPlayerNotifyCb (s : Decoder) (type : media.StatusType)
    : Decoder :=
  match type with
  | media.kPipelineError => set_media_decoder_available s false
  | media.kKeyFrameRequest => set_key_frame_required s true
  | _ => s
  end.

(** ** Executions *)

(** What can happen to a decoder: a call of its interface by the WebRTC
    stack, the task runner running one posted [DecodeOnMediaThread], or the
    media player running the status callback. *)
Inductive Action :=
| CallInitDecode (codec_settings : option webrtc.VideoCodec) (number_of_cores : Z)
| CallDecode (input_image : EncodedImage) (missing_frames : bool)
    (render_time_ms : Z)
| CallRegisterDecodeCompleteCallback (callback : option DecodedImageCallback)
| CallRelease
| RunPostedTask
| Notify (type : media.StatusType).

Section Executions.

Variable WrapExternalData_ok : gfx.Size -> EncodedImage -> bool.

Definition step (s : Decoder) (a : Action) : option Decoder :=
  match a with
  | CallInitDecode settings cores => Some (fst (InitDecode s settings cores))
  | CallDecode img missing render =>
      Some (fst (Decode WrapExternalData_ok s img missing render))
  | CallRegisterDecodeCompleteCallback cb =>
      Some (fst (RegisterDecodeCompleteCallback s cb))
  | CallRelease => Some (fst (Release s))
  | RunPostedTask =>
      match posted_tasks s with
      | O => Some s
      | S n => DecodeOnMediaThread (set_posted_tasks s n)
      end
  | Notify type => Some (OnMediaPlayerNotifyCb s type)
  end.

Fixpoint exec (s : Decoder) (actions : list Action) : option Decoder :=
  match actions with
  | [] => Some s
  | a :: rest =>
      match step s a with
      | Some s1 => exec s1 rest
      | None => None
      end
  end.

(** A run of [Decode] calls only, with the codes they return. *)
Fixpoint decode_all (s : Decoder) (calls : list (EncodedImage * bool * Z))
    : Decoder * list ReturnCode :=
  match calls with
  | [] => (s, [])
  | (img, missing, render) :: rest =>
      let (s1, rc) := Decode WrapExternalData_ok s img missing render in
      let (s2, rcs) := decode_all s1 rest in
      (s2, rc :: rcs)
  end.

(** [Decode] gets as far as the block under [lock_]: none of the early
    returns is taken and the frame is built. *)
Definition reaches_queue (s : Decoder) (input_image : EncodedImage)
    (missing_frames : bool) : bool :=
  media_decoder_available_ s
  && negb (VideoCodecType_eqb (video_codec_type_ s) kVideoCodecVP9
           && (0 <? value_or (SpatialIndex input_image) 0))
  && negb (missing_frames || negb (_completeFrame input_image))
  && negb (key_frame_required_ s && negb (is_key_frame input_image))
  && WrapExternalData_ok
       (if is_key_frame input_image
        then {| gfx.width := _encodedWidth input_image;
                gfx.height := _encodedHeight input_image |}
        else frame_size_ s)
       input_image.

(** The overflow branch of [Decode] is taken. *)
Definition overflows (s : Decoder) (input_image : EncodedImage)
    (missing_frames : bool) : bool :=
  reaches_queue s input_image missing_frames
  && (kMaxPendingFrames <=? length (pending_frames_ s))%nat.

(** The frame is appended to [pending_frames_]. *)
Definition admits (s : Decoder) (input_image : EncodedImage)
    (missing_frames : bool) : bool :=
  reaches_queue s input_image missing_frames
  && negb (kMaxPendingFrames <=? length (pending_frames_ s))%nat.

End Executions.

(** ** Derived notions used in the statements *)

(** The last [n] elements of a list. *)
Definition keep_last {A : Type} (n : nat) (l : list A) : list A :=
  skipn (length l - n) l.

(** The history after the timestamps of [frames] are recorded one by one. *)
Definition history_after (h : list Z) (frames : list media.VideoFrame)
    : list Z :=
  fold_left (fun h f => evict_oldest h ++ [media.timestamp f]) frames h.

(** The frame [Decode] enqueues for [input_image] when it admits it. *)
Definition admitted_frame (s : Decoder) (input_image : EncodedImage)
    : media.VideoFrame :=
  {| media.coded_size :=
       if is_key_frame input_image
       then {| gfx.width := _encodedWidth input_image;
               gfx.height := _encodedHeight input_image |}
       else frame_size_ s;
     media.frame_data := data input_image;
     media.timestamp := Timestamp input_image;
     media.KEY_FRAME := is_key_frame input_image;
     media.CODEC_ID := video_codec_ s |}.

(** The frames handed to the completion callback so far. *)
Definition delivered (s : Decoder) : list media.VideoFrame :=
  map (fun c => video_frame_buffer (snd c)) (decoded_calls s).

(** An action that leaves a registered callback registered. *)
Definition keeps_callback (a : Action) : bool :=
  match a with
  | CallRegisterDecodeCompleteCallback None => false
  | _ => true
  end.

Section Runs.

Variable WrapExternalData_ok : gfx.Size -> EncodedImage -> bool.

(** The frames an action appends to [pending_frames_]. *)
Definition admitted_by (s : Decoder) (a : Action) : list media.VideoFrame :=
  match a with
  | CallDecode img missing _ =>
      if admits WrapExternalData_ok s img missing
      then [admitted_frame s img] else []
  | _ => []
  end.

(** The frames admitted along a run, in admission order. *)
Fixpoint admitted (s : Decoder) (actions : list Action)
    : list media.VideoFrame :=
  match actions with
  | [] => []
  | a :: rest =>
      admitted_by s a ++
      match step WrapExternalData_ok s a with
      | Some s1 => admitted s1 rest
      | None => []
      end
  end.

(** An action that throws queued frames away: a [Decode] that takes the
    overflow branch, or [Release]. *)
Definition discards (s : Decoder) (a : Action) : bool :=
  match a with
  | CallDecode img missing _ => overflows WrapExternalData_ok s img missing
  | CallRelease => true
  | _ => false
  end.

Fixpoint discard_free (s : Decoder) (actions : list Action) : bool :=
  match actions with
  | [] => true
  | a :: rest =>
      negb (discards s a) &&
      match step WrapExternalData_ok s a with
      | Some s1 => discard_free s1 rest
      | None => true
      end
  end.

(** How many calls of a run of [Decode] calls take the overflow branch. *)
Fixpoint overflow_count (s : Decoder) (calls : list (EncodedImage * bool * Z))
    : nat :=
  match calls with
  | [] => O
  | (img, missing, render) :: rest =>
      ((if overflows WrapExternalData_ok s img missing then 1 else 0)
       + overflow_count
           (fst (Decode WrapExternalData_ok s img missing render)) rest)%nat
  end.

End Runs.

(** The size [Decode] has in [frame_size_] when it builds the frame. *)
Definition size_for (s : Decoder) (input_image : EncodedImage) : gfx.Size :=
  if is_key_frame input_image
  then {| gfx.width := _encodedWidth input_image;
          gfx.height := _encodedHeight input_image |}
  else frame_size_ s.

(** The state after a [Decode] that takes the overflow branch. *)
Definition after_overflow (s : Decoder) (input_image : EncodedImage)
    : Decoder :=
  {| video_codec_ := video_codec_ s;
     video_codec_type_ := video_codec_type_ s;
     media_decoder_available_ := media_decoder_available_ s;
     key_frame_required_ := true;
     frame_size_ := size_for s input_image;
     consecutive_error_count_ := wrap_int32 (consecutive_error_count_ s + 1);
     pending_frames_ := [];
     decode_timestamps_ :=
       if kMaxConsecutiveErrors <? wrap_int32 (consecutive_error_count_ s + 1)
       then [] else decode_timestamps_ s;
     decode_complete_callback_ := decode_complete_callback_ s;
     posted_tasks := posted_tasks s;
     decoded_calls := decoded_calls s |}.

(** The state after a [Decode] that enqueues its frame. *)
Definition after_admit (s : Decoder) (input_image : EncodedImage) : Decoder :=
  {| video_codec_ := video_codec_ s;
     video_codec_type_ := video_codec_type_ s;
     media_decoder_available_ := media_decoder_available_ s;
     key_frame_required_ := false;
     frame_size_ := size_for s input_image;
     consecutive_error_count_ := consecutive_error_count_ s;
     pending_frames_ := pending_frames_ s ++ [admitted_frame s input_image];
     decode_timestamps_ := decode_timestamps_ s;
     decode_complete_callback_ := decode_complete_callback_ s;
     posted_tasks := S (posted_tasks s);
     decoded_calls := decoded_calls s |}.

(** The state a drain of [frames] leaves when callback [cb] is registered. *)
Definition drained (s : Decoder) (cb : DecodedImageCallback)
    (frames : list media.VideoFrame) : Decoder :=
  {| video_codec_ := video_codec_ s;
     video_codec_type_ := video_codec_type_ s;
     media_decoder_available_ := media_decoder_available_ s;
     key_frame_required_ := key_frame_required_ s;
     frame_size_ := frame_size_ s;
     consecutive_error_count_ :=
       match frames with [] => consecutive_error_count_ s | _ => 0 end;
     pending_frames_ := pending_frames_ s;
     decode_timestamps_ := history_after (decode_timestamps_ s) frames;
     decode_complete_callback_ := Some cb;
     posted_tasks := posted_tasks s;
     decoded_calls :=
       decoded_calls s ++ map (fun f => (cb, make_rtc_frame f)) frames |}.

(** ** Sample inputs *)

(** A frame factory that accepts exactly the non-empty sizes. *)
Definition nonempty_size_ok (sz : gfx.Size) (_ : EncodedImage) : bool :=
  (0 <? gfx.width sz) && (0 <? gfx.height sz).

Definition key_image (t : Z) : EncodedImage :=
  {| _frameType := kVideoFrameKey; _completeFrame := true;
     _encodedWidth := 640; _encodedHeight := 480;
     Timestamp := t; SpatialIndex := None; data := [] |}.

Definition delta_image (t : Z) : EncodedImage :=
  {| _frameType := kVideoFrameDelta; _completeFrame := true;
     _encodedWidth := 0; _encodedHeight := 0;
     Timestamp := t; SpatialIndex := None; data := [] |}.

(** A VP8 decoder with a callback registered and [InitDecode] done:
    hardware available, key frame required, nothing queued or recorded. *)
Definition sample_decoder : Decoder :=
  {| video_codec_ := media.kCodecVP8;
     video_codec_type_ := kVideoCodecVP8;
     media_decoder_available_ := true;
     key_frame_required_ := true;
     frame_size_ := {| gfx.width := 0; gfx.height := 0 |};
     consecutive_error_count_ := 0;
     pending_frames_ := [];
     decode_timestamps_ := [];
     decode_complete_callback_ := Some 1%nat;
     posted_tasks := O;
     decoded_calls := [] |}.

(** [n] decode calls with key frames stamped [t], [t+1], ... *)
Fixpoint key_calls (n : nat) (t : Z) : list (EncodedImage * bool * Z) :=
  match n with
  | O => []
  | S m => (key_image t, false, 0) :: key_calls m (t + 1)
  end.

(** [sample_decoder] with its queue filled by eight key frames. *)
Definition full_decoder : Decoder :=
  fst (decode_all nonempty_size_ok sample_decoder (key_calls 8 0)).

(** 61 rounds of nine key frames: in each round the ninth call finds the
    queue full. *)
Definition escalation_calls : list (EncodedImage * bool * Z) :=
  key_calls (61 * 9) 0.

Definition escalated_decoder : Decoder :=
  fst (decode_all nonempty_size_ok sample_decoder escalation_calls).

(** [sample_decoder] after nine key frames and no drain: the ninth call
    found the queue full. *)
Definition overflowed_decoder : Decoder :=
  fst (decode_all nonempty_size_ok sample_decoder (key_calls 9 0)).

(** [sample_decoder] with timestamp 5 recorded. *)
Definition recorded_decoder : Decoder := record_timestamp sample_decoder 5.

(** [n] rounds of one key frame decoded and then drained. *)
Fixpoint decode_and_drain (n : nat) (t : Z) : list Action :=
  match n with
  | O => []
  | S m => CallDecode (key_image t) false 0 :: RunPostedTask
           :: decode_and_drain m (t + 1)
  end.

Definition forty_frames_drained : list Action := decode_and_drain 40 0.

(** Eight key frames decoded and no drain run. *)
Definition eight_decodes : list Action :=
  map (fun c => CallDecode (fst (fst c)) (snd (fst c)) (snd c)) (key_calls 8 0).

(** Two frames decoded and drained, then two more decoded. *)
Definition interleaved_actions : list Action :=
  [CallDecode (key_image 5) false 0; CallDecode (delta_image 6) false 0;
   RunPostedTask; CallDecode (delta_image 7) false 0; Notify media.kOtherStatus;
   CallDecode (key_image 8) false 0].

(** ** Construction *)

Definition set_video_codec (s : Decoder) (v : media.VideoCodec) : Decoder :=
  {| video_codec_ := v;
     video_codec_type_ := video_codec_type_ s;
     media_decoder_available_ := media_decoder_available_ s;
     key_frame_required_ := key_frame_required_ s;
     frame_size_ := frame_size_ s;
     consecutive_error_count_ := consecutive_error_count_ s;
     pending_frames_ := pending_frames_ s;
     decode_timestamps_ := decode_timestamps_ s;
     decode_complete_callback_ := decode_complete_callback_ s;
     posted_tasks := posted_tasks s;
     decoded_calls := decoded_calls s |}.

Definition VideoCodec_eqb (a b : media.VideoCodec) : bool :=
  match a, b with
  | media.kUnknownVideoCodec, media.kUnknownVideoCodec
  | media.kCodecH264, media.kCodecH264
  | media.kCodecVP8, media.kCodecVP8
  | media.kCodecVP9, media.kCodecVP9 => true
  | _, _ => false
  end.

Section Creation.

(** The functions [Create] calls that are declared elsewhere:
    [webrtc::PayloadStringToCodecType], [media::GetCodecName],
    [base::ToUpperASCII] and the capability lookup of [MediaPreferences]. *)
Variable PayloadStringToCodecType : String.string -> VideoCodecType.
Variable GetCodecName : media.VideoCodec -> String.string.
Variable ToUpperASCII : String.string -> String.string.
Variable MediaCodecCapability : Type.
Variable GetMediaCodecCapabilityForCodec :
  String.string -> option MediaCodecCapability.

(** The members as their default initializers in the class declaration
    leave them. *)
Variable default_members : Decoder.

(** The constructor: [video_codec_(video_codec)] on top of the defaults. *)
Definition WebRtcPassThroughVideoDecoder (video_codec : media.VideoCodec)
    : Decoder :=
  set_video_codec default_members video_codec.

(** [Create]; [None] is the null pointer. *)
Definition Create (sdp_format_name : String.string) : option Decoder :=
  let webrtc_codec_type := PayloadStringToCodecType sdp_format_name in
  (* Bail early for unknown codecs. *)
  let video_codec := ToVideoCodec webrtc_codec_type in
  if VideoCodec_eqb video_codec media.kUnknownVideoCodec then None
  else
    (* Fallback to software decoder if not supported by platform. *)
    let codec_name := ToUpperASCII (GetCodecName video_codec) in
    match GetMediaCodecCapabilityForCodec codec_name with
    | None => None
    | Some _ => Some (WebRtcPassThroughVideoDecoder video_codec)
    end.

End Creation.

(** The early returns of [Decode] before the frame is built are not taken. *)
Definition passes_gates (s : Decoder) (input_image : EncodedImage)
    (missing_frames : bool) : bool :=
  media_decoder_available_ s
  && negb (VideoCodecType_eqb (video_codec_type_ s) kVideoCodecVP9
           && (0 <? value_or (SpatialIndex input_image) 0))
  && negb (missing_frames || negb (_completeFrame input_image))
  && negb (key_frame_required_ s && negb (is_key_frame input_image)).

(** The "Record the timestamp" step of the drain, for a list of timestamps
    in turn. *)
Definition record_timestamps (s : Decoder) (ts : list Z) : Decoder :=
  fold_left record_timestamp ts s.

(** Every frame of the list is tagged with codec [c]. *)
Definition tagged_with (c : media.VideoCodec) (frames : list media.VideoFrame)
    : Prop :=
  Forall (fun f => media.CODEC_ID f = c) frames.

(** A complete key frame of coded size 0 x 0. *)
Definition empty_key_image : EncodedImage :=
  {| _frameType := kVideoFrameKey; _completeFrame := true;
     _encodedWidth := 0; _encodedHeight := 0;
     Timestamp := 3; SpatialIndex := None; data := [] |}.

(** The timestamps 100, 101, ... ([n] of them). *)
Fixpoint timestamps_from (n : nat) (t : Z) : list Z :=
  match n with
  | O => []
  | S m => t :: timestamps_from m (t + 1)
  end.

Definition thirty_two_later : list Z := timestamps_from 32 100.

(** * WebMediaPlayerWebRTC: the consumer of the decoder's frames

    The frame path of [media/blink/neva/webmediaplayer_webrtc.cc]: the
    members that the handling of encoded frames reads and writes, and the
    calls it makes on its surroundings (the status callback that the
    decoder attaches to its frames, the task runners, the platform media
    API, the delegate), kept in order in the trace [effects]. *)

Module WebMediaPlayerWebRTC.

Inductive PipelineStatus :=
| PIPELINE_OK
| PIPELINE_ERROR_ABORT
| DECODER_ERROR_RESOURCE_IS_RELEASED
| PIPELINE_ERROR_OTHER (code : nat).

Definition PipelineStatus_eqb (a b : PipelineStatus) : bool :=
  match a, b with
  | PIPELINE_OK, PIPELINE_OK
  | PIPELINE_ERROR_ABORT, PIPELINE_ERROR_ABORT
  | DECODER_ERROR_RESOURCE_IS_RELEASED, DECODER_ERROR_RESOURCE_IS_RELEASED =>
      true
  | PIPELINE_ERROR_OTHER m, PIPELINE_ERROR_OTHER n => Nat.eqb m n
  | _, _ => false
  end.

Inductive CompositorType :=
| kVideoFrameProviderImpl
| kWebMediaPlayerMSCompositor.

Inductive StatusOnSuspended :=
| UnknownStatus
| PlayingStatus
| PausedStatus.

Inductive SuspendReason :=
| kBackgrounded
| kSuspendedByPolicy.

Inductive RestorePlaybackMode :=
| kPaused
| kPlaying.

Inductive VideoCodecProfile :=
| VIDEO_CODEC_PROFILE_UNKNOWN
| H264PROFILE_MIN
| VP8PROFILE_ANY
| VP9PROFILE_MIN.

(** A [media_player_status_cb]: the decoder it is bound to. *)
Definition StatusCb := nat.

(** What [OnPipelineFeed] copies out of a frame into a [DecoderBuffer]. *)
Record DecoderBuffer := {
  buffer_data : list Byte.byte;
  buffer_timestamp : Z;
  buffer_is_key_frame : bool
}.

(** A frame as [HandleVideoFrame] sees it: a raw frame, whose metadata has
    no CODEC_ID, or an encoded frame of the decoder with the status callback
    the decoder attached to it. *)
Inductive IncomingFrame :=
| RawVideoFrame
| EncodedVideoFrame (video_frame : media.VideoFrame)
    (media_player_status_cb : option StatusCb).

(** The calls on the surroundings, as they are made. *)
Inductive Effect :=
| StatusCbRun (cb : StatusCb) (type : media.StatusType)
| PostHandleEncodedFrame (encoded_frame : media.VideoFrame)
| PostInitMediaPlatformAPI (input_frame : media.VideoFrame)
| PostOnPipelineFeed
| ApiFinalize
| ApiCreated
| ApiInitialize (profile : VideoCodecProfile) (coded_size : gfx.Size)
| ApiSetPlaybackRate
| ApiFeed (buffer : DecoderBuffer)
| ApiSuspend (reason : SuspendReason)
| ApiResume (paused_time : Z) (mode : RestorePlaybackMode)
| DidMediaActivated
| DidMediaSuspended
| SetFrameTypeBlack
| ReplaceCurrentFrameWithACopy
| SetNetworkState (status : PipelineStatus)
| RepaintInternal.

Record Player := {
  compositor_type_ : CompositorType;
  media_player_status_cb_ : option StatusCb;
  is_suspended_ : bool;
  is_destroying_ : bool;
  is_loading_ : bool;
  has_activation_permit_ : bool;
  status_on_suspended_ : StatusOnSuspended;
  paused_time_ : Z;
  pipeline_status_ : PipelineStatus;
  pipeline_running_ : bool;
  start_timestamp_ : Z;
  pending_encoded_frames_ : list media.VideoFrame;
  media_platform_api_ : bool;
  video_codec_ : media.VideoCodec;
  effects : list Effect
}.

Definition set_compositor_type (p : Player) (v : CompositorType) : Player :=
  {| compositor_type_ := v;
     media_player_status_cb_ := media_player_status_cb_ p;
     is_suspended_ := is_suspended_ p;
     is_destroying_ := is_destroying_ p;
     is_loading_ := is_loading_ p;
     has_activation_permit_ := has_activation_permit_ p;
     status_on_suspended_ := status_on_suspended_ p;
     paused_time_ := paused_time_ p;
     pipeline_status_ := pipeline_status_ p;
     pipeline_running_ := pipeline_running_ p;
     start_timestamp_ := start_timestamp_ p;
     pending_encoded_frames_ := pending_encoded_frames_ p;
     media_platform_api_ := media_platform_api_ p;
     video_codec_ := video_codec_ p;
     effects := effects p |}.

Definition set_media_player_status_cb (p : Player) (v : option StatusCb) : Player :=
  {| compositor_type_ := compositor_type_ p;
     media_player_status_cb_ := v;
     is_suspended_ := is_suspended_ p;
     is_destroying_ := is_destroying_ p;
     is_loading_ := is_loading_ p;
     has_activation_permit_ := has_activation_permit_ p;
     status_on_suspended_ := status_on_suspended_ p;
     paused_time_ := paused_time_ p;
     pipeline_status_ := pipeline_status_ p;
     pipeline_running_ := pipeline_running_ p;
     start_timestamp_ := start_timestamp_ p;
     pending_encoded_frames_ := pending_encoded_frames_ p;
     media_platform_api_ := media_platform_api_ p;
     video_codec_ := video_codec_ p;
     effects := effects p |}.

Definition set_is_suspended (p : Player) (v : bool) : Player :=
  {| compositor_type_ := compositor_type_ p;
     media_player_status_cb_ := media_player_status_cb_ p;
     is_suspended_ := v;
     is_destroying_ := is_destroying_ p;
     is_loading_ := is_loading_ p;
     has_activation_permit_ := has_activation_permit_ p;
     status_on_suspended_ := status_on_suspended_ p;
     paused_time_ := paused_time_ p;
     pipeline_status_ := pipeline_status_ p;
     pipeline_running_ := pipeline_running_ p;
     start_timestamp_ := start_timestamp_ p;
     pending_encoded_frames_ := pending_encoded_frames_ p;
     media_platform_api_ := media_platform_api_ p;
     video_codec_ := video_codec_ p;
     effects := effects p |}.

Definition set_is_destroying (p : Player) (v : bool) : Player :=
  {| compositor_type_ := compositor_type_ p;
     media_player_status_cb_ := media_player_status_cb_ p;
     is_suspended_ := is_suspended_ p;
     is_destroying_ := v;
     is_loading_ := is_loading_ p;
     has_activation_permit_ := has_activation_permit_ p;
     status_on_suspended_ := status_on_suspended_ p;
     paused_time_ := paused_time_ p;
     pipeline_status_ := pipeline_status_ p;
     pipeline_running_ := pipeline_running_ p;
     start_timestamp_ := start_timestamp_ p;
     pending_encoded_frames_ := pending_encoded_frames_ p;
     media_platform_api_ := media_platform_api_ p;
     video_codec_ := video_codec_ p;
     effects := effects p |}.

Definition set_is_loading (p : Player) (v : bool) : Player :=
  {| compositor_type_ := compositor_type_ p;
     media_player_status_cb_ := media_player_status_cb_ p;
     is_suspended_ := is_suspended_ p;
     is_destroying_ := is_destroying_ p;
     is_loading_ := v;
     has_activation_permit_ := has_activation_permit_ p;
     status_on_suspended_ := status_on_suspended_ p;
     paused_time_ := paused_time_ p;
     pipeline_status_ := pipeline_status_ p;
     pipeline_running_ := pipeline_running_ p;
     start_timestamp_ := start_timestamp_ p;
     pending_encoded_frames_ := pending_encoded_frames_ p;
     media_platform_api_ := media_platform_api_ p;
     video_codec_ := video_codec_ p;
     effects := effects p |}.

Definition set_has_activation_permit (p : Player) (v : bool) : Player :=
  {| compositor_type_ := compositor_type_ p;
     media_player_status_cb_ := media_player_status_cb_ p;
     is_suspended_ := is_suspended_ p;
     is_destroying_ := is_destroying_ p;
     is_loading_ := is_loading_ p;
     has_activation_permit_ := v;
     status_on_suspended_ := status_on_suspended_ p;
     paused_time_ := paused_time_ p;
     pipeline_status_ := pipeline_status_ p;
     pipeline_running_ := pipeline_running_ p;
     start_timestamp_ := start_timestamp_ p;
     pending_encoded_frames_ := pending_encoded_frames_ p;
     media_platform_api_ := media_platform_api_ p;
     video_codec_ := video_codec_ p;
     effects := effects p |}.

Definition set_status_on_suspended (p : Player) (v : StatusOnSuspended) : Player :=
  {| compositor_type_ := compositor_type_ p;
     media_player_status_cb_ := media_player_status_cb_ p;
     is_suspended_ := is_suspended_ p;
     is_destroying_ := is_destroying_ p;
     is_loading_ := is_loading_ p;
     has_activation_permit_ := has_activation_permit_ p;
     status_on_suspended_ := v;
     paused_time_ := paused_time_ p;
     pipeline_status_ := pipeline_status_ p;
     pipeline_running_ := pipeline_running_ p;
     start_timestamp_ := start_timestamp_ p;
     pending_encoded_frames_ := pending_encoded_frames_ p;
     media_platform_api_ := media_platform_api_ p;
     video_codec_ := video_codec_ p;
     effects := effects p |}.

Definition set_paused_time (p : Player) (v : Z) : Player :=
  {| compositor_type_ := compositor_type_ p;
     media_player_status_cb_ := media_player_status_cb_ p;
     is_suspended_ := is_suspended_ p;
     is_destroying_ := is_destroying_ p;
     is_loading_ := is_loading_ p;
     has_activation_permit_ := has_activation_permit_ p;
     status_on_suspended_ := status_on_suspended_ p;
     paused_time_ := v;
     pipeline_status_ := pipeline_status_ p;
     pipeline_running_ := pipeline_running_ p;
     start_timestamp_ := start_timestamp_ p;
     pending_encoded_frames_ := pending_encoded_frames_ p;
     media_platform_api_ := media_platform_api_ p;
     video_codec_ := video_codec_ p;
     effects := effects p |}.

Definition set_pipeline_status (p : Player) (v : PipelineStatus) : Player :=
  {| compositor_type_ := compositor_type_ p;
     media_player_status_cb_ := media_player_status_cb_ p;
     is_suspended_ := is_suspended_ p;
     is_destroying_ := is_destroying_ p;
     is_loading_ := is_loading_ p;
     has_activation_permit_ := has_activation_permit_ p;
     status_on_suspended_ := status_on_suspended_ p;
     paused_time_ := paused_time_ p;
     pipeline_status_ := v;
     pipeline_running_ := pipeline_running_ p;
     start_timestamp_ := start_timestamp_ p;
     pending_encoded_frames_ := pending_encoded_frames_ p;
     media_platform_api_ := media_platform_api_ p;
     video_codec_ := video_codec_ p;
     effects := effects p |}.

Definition set_pipeline_running (p : Player) (v : bool) : Player :=
  {| compositor_type_ := compositor_type_ p;
     media_player_status_cb_ := media_player_status_cb_ p;
     is_suspended_ := is_suspended_ p;
     is_destroying_ := is_destroying_ p;
     is_loading_ := is_loading_ p;
     has_activation_permit_ := has_activation_permit_ p;
     status_on_suspended_ := status_on_suspended_ p;
     paused_time_ := paused_time_ p;
     pipeline_status_ := pipeline_status_ p;
     pipeline_running_ := v;
     start_timestamp_ := start_timestamp_ p;
     pending_encoded_frames_ := pending_encoded_frames_ p;
     media_platform_api_ := media_platform_api_ p;
     video_codec_ := video_codec_ p;
     effects := effects p |}.

Definition set_start_timestamp (p : Player) (v : Z) : Player :=
  {| compositor_type_ := compositor_type_ p;
     media_player_status_cb_ := media_player_status_cb_ p;
     is_suspended_ := is_suspended_ p;
     is_destroying_ := is_destroying_ p;
     is_loading_ := is_loading_ p;
     has_activation_permit_ := has_activation_permit_ p;
     status_on_suspended_ := status_on_suspended_ p;
     paused_time_ := paused_time_ p;
     pipeline_status_ := pipeline_status_ p;
     pipeline_running_ := pipeline_running_ p;
     start_timestamp_ := v;
     pending_encoded_frames_ := pending_encoded_frames_ p;
     media_platform_api_ := media_platform_api_ p;
     video_codec_ := video_codec_ p;
     effects := effects p |}.

Definition set_pending_encoded_frames (p : Player) (v : list media.VideoFrame) : Player :=
  {| compositor_type_ := compositor_type_ p;
     media_player_status_cb_ := media_player_status_cb_ p;
     is_suspended_ := is_suspended_ p;
     is_destroying_ := is_destroying_ p;
     is_loading_ := is_loading_ p;
     has_activation_permit_ := has_activation_permit_ p;
     status_on_suspended_ := status_on_suspended_ p;
     paused_time_ := paused_time_ p;
     pipeline_status_ := pipeline_status_ p;
     pipeline_running_ := pipeline_running_ p;
     start_timestamp_ := start_timestamp_ p;
     pending_encoded_frames_ := v;
     media_platform_api_ := media_platform_api_ p;
     video_codec_ := video_codec_ p;
     effects := effects p |}.

Definition set_media_platform_api (p : Player) (v : bool) : Player :=
  {| compositor_type_ := compositor_type_ p;
     media_player_status_cb_ := media_player_status_cb_ p;
     is_suspended_ := is_suspended_ p;
     is_destroying_ := is_destroying_ p;
     is_loading_ := is_loading_ p;
     has_activation_permit_ := has_activation_permit_ p;
     status_on_suspended_ := status_on_suspended_ p;
     paused_time_ := paused_time_ p;
     pipeline_status_ := pipeline_status_ p;
     pipeline_running_ := pipeline_running_ p;
     start_timestamp_ := start_timestamp_ p;
     pending_encoded_frames_ := pending_encoded_frames_ p;
     media_platform_api_ := v;
     video_codec_ := video_codec_ p;
     effects := effects p |}.

Definition set_video_codec (p : Player) (v : media.VideoCodec) : Player :=
  {| compositor_type_ := compositor_type_ p;
     media_player_status_cb_ := media_player_status_cb_ p;
     is_suspended_ := is_suspended_ p;
     is_destroying_ := is_destroying_ p;
     is_loading_ := is_loading_ p;
     has_activation_permit_ := has_activation_permit_ p;
     status_on_suspended_ := status_on_suspended_ p;
     paused_time_ := paused_time_ p;
     pipeline_status_ := pipeline_status_ p;
     pipeline_running_ := pipeline_running_ p;
     start_timestamp_ := start_timestamp_ p;
     pending_encoded_frames_ := pending_encoded_frames_ p;
     media_platform_api_ := media_platform_api_ p;
     video_codec_ := v;
     effects := effects p |}.

Definition set_effects (p : Player) (v : list Effect) : Player :=
  {| compositor_type_ := compositor_type_ p;
     media_player_status_cb_ := media_player_status_cb_ p;
     is_suspended_ := is_suspended_ p;
     is_destroying_ := is_destroying_ p;
     is_loading_ := is_loading_ p;
     has_activation_permit_ := has_activation_permit_ p;
     status_on_suspended_ := status_on_suspended_ p;
     paused_time_ := paused_time_ p;
     pipeline_status_ := pipeline_status_ p;
     pipeline_running_ := pipeline_running_ p;
     start_timestamp_ := start_timestamp_ p;
     pending_encoded_frames_ := pending_encoded_frames_ p;
     media_platform_api_ := media_platform_api_ p;
     video_codec_ := video_codec_ p;
     effects := v |}.

Definition emit (p : Player) (e : Effect) : Player :=
  set_effects p (effects p ++ [e]).

(** [media_player_status_cb_.Run(type)] guarded by [!is_null()]. *)
Definition run_status_cb (p : Player) (type : media.StatusType) : Player :=
  match media_player_status_cb_ p with
  | Some cb => emit p (StatusCbRun cb type)
  | None => p
  end.

(** [frame->set_timestamp(t)]. *)
Definition set_timestamp (f : media.VideoFrame) (t : Z) : media.VideoFrame :=
  {| media.coded_size := media.coded_size f;
     media.frame_data := media.frame_data f;
     media.timestamp := t;
     media.KEY_FRAME := media.KEY_FRAME f;
     media.CODEC_ID := media.CODEC_ID f |}.

Definition HandleVideoFrame (p : Player) (video_frame : IncomingFrame)
    : Player * bool :=
  match video_frame with
  | RawVideoFrame =>
      (set_compositor_type p kWebMediaPlayerMSCompositor, false)
  | EncodedVideoFrame frame frame_cb =>
      let p1 := set_compositor_type p kVideoFrameProviderImpl in
      let p2 := match media_player_status_cb_ p1, frame_cb with
                | None, Some cb => set_media_player_status_cb p1 (Some cb)
                | _, _ => p1
                end in
      if is_suspended_ p2 then
        (set_pending_encoded_frames p2 [], true)
      else
        (emit p2 (PostHandleEncodedFrame frame), true)
  end.

Definition DestroyMediaPlatformAPI (p : Player) : Player :=
  if negb (media_platform_api_ p) then p
  else set_media_platform_api (emit p ApiFinalize) false.

(** [created] tells whether the factory returns a platform API object.
    [ApiCreated] stands for the factory call and the configuration calls on
    the new object that follow it; none of them touches a member of this
    record. *)
Definition CreateMediaPlatformAPI (p : Player) (created : bool) : Player :=
  let p1 := DestroyMediaPlatformAPI p in
  if created then emit (set_media_platform_api p1 true) ApiCreated
  else set_media_platform_api p1 false.

Definition StartMediaPipeline (p : Player) (input_frame : media.VideoFrame)
    (created : bool) : Player :=
  let video_codec := media.CODEC_ID input_frame in
  if media_platform_api_ p && VideoCodec_eqb (video_codec_ p) video_codec
  then p
  else if negb (media.KEY_FRAME input_frame) then
    run_status_cb p media.kKeyFrameRequest
  else
    let p1 := set_video_codec p video_codec in
    let p2 := CreateMediaPlatformAPI p1 created in
    emit p2 (PostInitMediaPlatformAPI input_frame).

Section WithTimeDelta.

(** [media::kNoTimestamp] and the subtraction of [base::TimeDelta]. *)
Variable kNoTimestamp : Z.
Variable TimeDelta_minus : Z -> Z -> Z.

Definition HandleEncodedFrame (p : Player) (encoded_frame : media.VideoFrame)
    (created : bool) : Player :=
  if negb (PipelineStatus_eqb (pipeline_status_ p) PIPELINE_OK) then p
  else
    let p1 := StartMediaPipeline p encoded_frame created in
    let incoming_timestamp := media.timestamp encoded_frame in
    let p2 :=
      if negb (pipeline_running_ p1) && media.KEY_FRAME encoded_frame then
        let q1 := set_start_timestamp p1 incoming_timestamp in
        let q2 := set_pending_encoded_frames q1 [] in
        set_pending_encoded_frames q2
          (pending_encoded_frames_ q2 ++ [set_timestamp encoded_frame 0])
      else
        let q1 := if start_timestamp_ p1 =? kNoTimestamp
                  then set_start_timestamp p1 incoming_timestamp else p1 in
        let elapsed_timestamp :=
          TimeDelta_minus incoming_timestamp (start_timestamp_ q1) in
        set_pending_encoded_frames q1
          (pending_encoded_frames_ q1
           ++ [set_timestamp encoded_frame elapsed_timestamp]) in
    if pipeline_running_ p2 then emit p2 PostOnPipelineFeed else p2.

End WithTimeDelta.

(** The profile [GetVideoConfig] picks; the default branch is the
    [NOTREACHED()] one. *)
Definition GetVideoConfig_profile (p : Player) : VideoCodecProfile :=
  match video_codec_ p with
  | media.kCodecH264 => H264PROFILE_MIN
  | media.kCodecVP8 => VP8PROFILE_ANY
  | media.kCodecVP9 => VP9PROFILE_MIN
  | _ => VIDEO_CODEC_PROFILE_UNKNOWN
  end.

(** [None] is the call through a null [media_platform_api_]. *)
Definition InitMediaPlatformAPI (p : Player) (input_frame : media.VideoFrame)
    : option Player :=
  if media_platform_api_ p then
    Some (emit p (ApiInitialize (GetVideoConfig_profile p)
                    (media.coded_size input_frame)))
  else None.

Definition ReleaseMediaPlatformAPI (p : Player) : Player :=
  let p1 := set_is_destroying p true in
  let p2 := set_pending_encoded_frames p1 [] in
  let p3 := emit p2 ReplaceCurrentFrameWithACopy in
  let p4 := DestroyMediaPlatformAPI p3 in
  let p5 := set_pipeline_running p4 false in
  set_pipeline_status p5 PIPELINE_OK.

Definition buffer_of (encoded_frame : media.VideoFrame) : DecoderBuffer :=
  {| buffer_data := media.frame_data encoded_frame;
     buffer_timestamp := media.timestamp encoded_frame;
     buffer_is_key_frame := media.KEY_FRAME encoded_frame |}.

(** The loop of [OnPipelineFeed] over the swapped-out frames. *)
Fixpoint feed_loop (encoded_frames : list media.VideoFrame) (p : Player)
    : option Player :=
  match encoded_frames with
  | [] => Some p
  | encoded_frame :: rest =>
      if media_platform_api_ p
      then feed_loop rest (emit p (ApiFeed (buffer_of encoded_frame)))
      else None
  end.

Definition OnPipelineFeed (p : Player) : option Player :=
  if is_destroying_ p then Some p
  else
    let encoded_frames := pending_encoded_frames_ p in
    feed_loop encoded_frames (set_pending_encoded_frames p []).

(** [paused], [suppressed] and [black_frame] are what [Paused()],
    [client_->IsSuppressedMediaPlay()] and
    [HasVideo() && is_render_mode_texture()] answer. *)
Definition SuspendInternal (p : Player) (paused suppressed black_frame : bool)
    : Player :=
  if is_suspended_ p then p
  else
    let p1 := set_status_on_suspended p
                (if paused then PausedStatus else PlayingStatus) in
    let p2 := if media_platform_api_ p1
              then emit p1 (ApiSuspend (if suppressed then kBackgrounded
                                        else kSuspendedByPolicy))
              else p1 in
    let p3 := set_is_suspended p2 true in
    let p4 := set_has_activation_permit p3 false in
    let p5 := if black_frame then emit p4 SetFrameTypeBlack else p4 in
    if negb (media_platform_api_ p5) then emit p5 DidMediaSuspended else p5.

Definition ResumeInternal (p : Player) : Player :=
  if negb (is_suspended_ p) then p
  else
    let p1 := set_is_suspended p false in
    let p2 := run_status_cb p1 media.kKeyFrameRequest in
    let restore_playback_mode :=
      match status_on_suspended_ p2 with
      | PausedStatus => kPaused
      | _ => kPlaying
      end in
    if media_platform_api_ p2
    then emit p2 (ApiResume (paused_time_ p2) restore_playback_mode)
    else emit p2 DidMediaActivated.

Definition OnMediaPlatformAPIInitialized (p : Player) (status : PipelineStatus)
    : Player :=
  if is_destroying_ p || negb (media_platform_api_ p) then p
  else
    let p1 := set_pipeline_running p true in
    let p2 := set_pipeline_status p1 status in
    let p3 := emit p2 ApiSetPlaybackRate in
    emit p3 PostOnPipelineFeed.

Definition OnPipelineError (p : Player) (status : PipelineStatus) : Player :=
  let p1 := if is_loading_ p
            then emit (set_is_loading p false) DidMediaActivated else p in
  if is_destroying_ p1 then p1
  else
    let p2 :=
      match media_player_status_cb_ p1 with
      | Some cb =>
          if PipelineStatus_eqb status PIPELINE_ERROR_ABORT
             || PipelineStatus_eqb status DECODER_ERROR_RESOURCE_IS_RELEASED
          then emit p1 (StatusCbRun cb media.kPipelineError)
          else p1
      | None => p1
      end in
    let p3 := set_pending_encoded_frames p2 [] in
    let p4 := emit p3 ReplaceCurrentFrameWithACopy in
    let p5 := set_pipeline_running p4 false in
    let p6 := set_pipeline_status p5 status in
    let p7 := emit p6 (SetNetworkState status) in
    emit p7 RepaintInternal.

(** What can happen to the player on the frame path. *)
Inductive Action :=
| CallHandleVideoFrame (video_frame : IncomingFrame)
| RunHandleEncodedFrame (encoded_frame : media.VideoFrame) (created : bool)
| RunInitMediaPlatformAPI (input_frame : media.VideoFrame)
| RunOnPipelineFeed
| CallOnMediaPlatformAPIInitialized (status : PipelineStatus)
| CallOnPipelineError (status : PipelineStatus)
| CallReleaseMediaPlatformAPI
| CallSuspendInternal (paused suppressed black_frame : bool)
| CallResumeInternal.

Section PlayerExecutions.

Variable kNoTimestamp : Z.
Variable TimeDelta_minus : Z -> Z -> Z.

Definition step (p : Player) (a : Action) : option Player :=
  match a with
  | CallHandleVideoFrame f => Some (fst (HandleVideoFrame p f))
  | RunHandleEncodedFrame f created =>
      Some (HandleEncodedFrame kNoTimestamp TimeDelta_minus p f created)
  | RunInitMediaPlatformAPI f => InitMediaPlatformAPI p f
  | RunOnPipelineFeed => OnPipelineFeed p
  | CallOnMediaPlatformAPIInitialized status =>
      Some (OnMediaPlatformAPIInitialized p status)
  | CallOnPipelineError status => Some (OnPipelineError p status)
  | CallReleaseMediaPlatformAPI => Some (ReleaseMediaPlatformAPI p)
  | CallSuspendInternal paused suppressed black_frame =>
      Some (SuspendInternal p paused suppressed black_frame)
  | CallResumeInternal => Some (ResumeInternal p)
  end.

Fixpoint exec (p : Player) (actions : list Action) : option Player :=
  match actions with
  | [] => Some p
  | a :: rest =>
      match step p a with
      | Some p1 => exec p1 rest
      | None => None
      end
  end.

(** A run of [HandleEncodedFrame] tasks. *)
Fixpoint handle_all (p : Player) (calls : list (media.VideoFrame * bool))
    : Player :=
  match calls with
  | [] => p
  | (f, created) :: rest =>
      handle_all (HandleEncodedFrame kNoTimestamp TimeDelta_minus p f created)
        rest
  end.

End PlayerExecutions.

(** The effects appended between two states of a player. *)
Definition new_effects (p p' : Player) : list Effect :=
  skipn (length (effects p)) (effects p').


(** A player before any frame: nothing pending, no platform API. *)
Definition sample_player : Player :=
  {| compositor_type_ := kWebMediaPlayerMSCompositor;
     media_player_status_cb_ := None;
     is_suspended_ := false;
     is_destroying_ := false;
     is_loading_ := false;
     has_activation_permit_ := true;
     status_on_suspended_ := UnknownStatus;
     paused_time_ := 0;
     pipeline_status_ := PIPELINE_OK;
     pipeline_running_ := false;
     start_timestamp_ := - 2 ^ 63;
     pending_encoded_frames_ := [];
     media_platform_api_ := false;
     video_codec_ := media.kUnknownVideoCodec;
     effects := [] |}.

End WebMediaPlayerWebRTC.

(** The status callback of the frames is bound to the decoder's
    [OnMediaPlayerNotifyCb]: what the player's calls of it do to the
    decoder. *)
Definition relay_status_cb (es : list WebMediaPlayerWebRTC.Effect)
    (s : Decoder) : Decoder :=
  fold_left
    (fun s e =>
       match e with
       | WebMediaPlayerWebRTC.StatusCbRun _ type => OnMediaPlayerNotifyCb s type
       | _ => s
       end) es s.

(** Frames as the decoder builds them, and a player that has seen one. *)
Definition sample_key_frame (t : Z) : media.VideoFrame :=
  admitted_frame sample_decoder (key_image t).

Definition sample_delta_frame (t : Z) : media.VideoFrame :=
  admitted_frame
    (fst (Decode nonempty_size_ok sample_decoder (key_image 0) false 0))
    (delta_image t).

Definition listening_player : WebMediaPlayerWebRTC.Player :=
  fst (WebMediaPlayerWebRTC.HandleVideoFrame
         WebMediaPlayerWebRTC.sample_player
         (WebMediaPlayerWebRTC.EncodedVideoFrame (sample_key_frame 10)
            (Some 1%nat))).

Definition suspended_player : WebMediaPlayerWebRTC.Player :=
  WebMediaPlayerWebRTC.SuspendInternal listening_player false false false.

(** A key frame and two delta frames handled, then the pipeline reported
    initialized, an error, and one more frame. *)
Definition sample_player_actions : list WebMediaPlayerWebRTC.Action :=
  [WebMediaPlayerWebRTC.RunHandleEncodedFrame (sample_key_frame 10) true;
   WebMediaPlayerWebRTC.RunHandleEncodedFrame (sample_delta_frame 43) true;
   WebMediaPlayerWebRTC.RunInitMediaPlatformAPI (sample_key_frame 10);
   WebMediaPlayerWebRTC.CallOnMediaPlatformAPIInitialized
     WebMediaPlayerWebRTC.PIPELINE_OK;
   WebMediaPlayerWebRTC.RunOnPipelineFeed;
   WebMediaPlayerWebRTC.RunHandleEncodedFrame (sample_key_frame 76) true;
   WebMediaPlayerWebRTC.CallOnPipelineError
     WebMediaPlayerWebRTC.PIPELINE_ERROR_ABORT;
   WebMediaPlayerWebRTC.RunHandleEncodedFrame (sample_delta_frame 109) true].

(** [listening_player] after a key frame and a delta frame 33 later were
    handled and the platform API was created. *)
Definition fed_player : WebMediaPlayerWebRTC.Player :=
  WebMediaPlayerWebRTC.handle_all (- 2 ^ 63) Z.sub listening_player
    [(sample_key_frame 10, true); (sample_delta_frame 43, true)].

(** * Properties *)

(** ** The timestamp history *)

Lemma Contains_In (l : list Z) (t : Z) : Contains l t = true <-> In t l.
Proof.
  unfold Contains. rewrite existsb_exists. split.
  - intros [x [Hin Heq]]. apply Z.eqb_eq in Heq. now subst.
  - intros Hin. exists t. split; [assumption | apply Z.eqb_refl].
Qed.

Lemma Contains_not_In (l : list Z) (t : Z) : Contains l t = false <-> ~ In t l.
Proof.
  rewrite <- Contains_In. destruct (Contains l t); split; intro H;
    try reflexivity; try discriminate; try congruence.
Qed.

Lemma evict_oldest_skipn (h : list Z) :
  evict_oldest h = skipn (length h - (kMaxDecodeHistory - 1)) h.
Proof.
  induction h as [|t rest IH]; [reflexivity|].
  cbn [evict_oldest length]. unfold kMaxDecodeHistory in *.
  destruct (32 <=? S (length rest))%nat eqn:E.
  - apply Nat.leb_le in E. rewrite IH.
    replace (S (length rest) - (32 - 1))%nat
      with (S (length rest - (32 - 1)))%nat by lia.
    reflexivity.
  - apply Nat.leb_gt in E.
    replace (S (length rest) - (32 - 1))%nat with O by lia. reflexivity.
Qed.

Lemma evict_oldest_length (h : list Z) :
  (length (evict_oldest h) < kMaxDecodeHistory)%nat.
Proof.
  rewrite evict_oldest_skipn, length_skipn. unfold kMaxDecodeHistory. lia.
Qed.

Lemma evict_oldest_small (h : list Z) :
  (length h < kMaxDecodeHistory)%nat -> evict_oldest h = h.
Proof.
  intro H. rewrite evict_oldest_skipn.
  replace (length h - (kMaxDecodeHistory - 1))%nat with O by lia. reflexivity.
Qed.

Lemma record_keep_last (h : list Z) (t : Z) :
  evict_oldest h ++ [t] = keep_last kMaxDecodeHistory (h ++ [t]).
Proof.
  unfold keep_last. rewrite evict_oldest_skipn, length_app, skipn_app.
  cbn [length]. unfold kMaxDecodeHistory.
  replace (length h + 1 - 32)%nat with (length h - (32 - 1))%nat by lia.
  replace (length h - (32 - 1) - length h)%nat with O by lia. reflexivity.
Qed.

Lemma keep_last_length {A : Type} (n : nat) (l : list A) :
  (length (keep_last n l) <= n)%nat.
Proof. unfold keep_last. rewrite length_skipn. lia. Qed.

Lemma keep_last_all {A : Type} (n : nat) (l : list A) :
  (length l <= n)%nat -> keep_last n l = l.
Proof.
  intro H. unfold keep_last. replace (length l - n)%nat with O by lia.
  reflexivity.
Qed.

Lemma keep_last_app {A : Type} (n : nat) (l l2 : list A) :
  keep_last n (keep_last n l ++ l2) = keep_last n (l ++ l2).
Proof.
  unfold keep_last.
  assert (E : skipn (length l - n) l ++ l2 = skipn (length l - n) (l ++ l2)).
  { rewrite skipn_app.
    replace (length l - n - length l)%nat with O by lia. reflexivity. }
  rewrite E, length_skipn, skipn_skipn, !length_app. f_equal. lia.
Qed.

Lemma history_after_keep_last (frames : list media.VideoFrame) (h : list Z) :
  (length h <= kMaxDecodeHistory)%nat ->
  history_after h frames
  = keep_last kMaxDecodeHistory (h ++ map media.timestamp frames).
Proof.
  revert h. induction frames as [|f rest IH]; intros h Hlen.
  - cbn [history_after fold_left map]. rewrite app_nil_r.
    symmetry. now apply keep_last_all.
  - cbn [history_after fold_left map].
    fold (history_after (evict_oldest h ++ [media.timestamp f]) rest).
    rewrite IH.
    + rewrite record_keep_last, keep_last_app, <- app_assoc. reflexivity.
    + rewrite length_app. cbn [length].
      pose proof (evict_oldest_length h). lia.
Qed.

Lemma history_after_length (frames : list media.VideoFrame) (h : list Z) :
  (length h <= kMaxDecodeHistory)%nat ->
  (length (history_after h frames) <= kMaxDecodeHistory)%nat.
Proof.
  intro H. rewrite history_after_keep_last by exact H. apply keep_last_length.
Qed.

Lemma record_timestamp_In (s : Decoder) (t : Z) :
  In t (decode_timestamps_ (record_timestamp s t)).
Proof. cbn. apply in_or_app. right. now left. Qed.

(** ** The result sink and the drain *)

Lemma ReturnEncodedFrame_frame (s s' : Decoder) (f : media.VideoFrame) :
  ReturnEncodedFrame s f = Some s' ->
  pending_frames_ s' = pending_frames_ s /\
  decode_timestamps_ s' = decode_timestamps_ s /\
  posted_tasks s' = posted_tasks s /\
  key_frame_required_ s' = key_frame_required_ s /\
  media_decoder_available_ s' = media_decoder_available_ s /\
  decode_complete_callback_ s' = decode_complete_callback_ s.
Proof.
  unfold ReturnEncodedFrame.
  destruct (Contains (decode_timestamps_ s) (media.timestamp f)); cbn.
  - destruct (decode_complete_callback_ s) eqn:Ecb; [|discriminate].
    intro H. injection H as <-. cbn. repeat split. now symmetry.
  - intro H. injection H as <-. repeat split.
Qed.

Lemma drain_loop_frame (frames : list media.VideoFrame) (s s' : Decoder) :
  drain_loop frames s = Some s' ->
  pending_frames_ s' = pending_frames_ s /\
  decode_timestamps_ s' = history_after (decode_timestamps_ s) frames /\
  posted_tasks s' = posted_tasks s /\
  key_frame_required_ s' = key_frame_required_ s /\
  media_decoder_available_ s' = media_decoder_available_ s /\
  decode_complete_callback_ s' = decode_complete_callback_ s.
Proof.
  revert s. induction frames as [|f rest IH]; intros s H.
  - injection H as <-. repeat split.
  - cbn [drain_loop] in H.
    destruct (ReturnEncodedFrame (record_timestamp s (media.timestamp f)) f)
      as [s2|] eqn:E; [|discriminate].
    apply ReturnEncodedFrame_frame in E. apply IH in H.
    destruct E as (E1 & E2 & E3 & E4 & E5 & E6).
    destruct H as (H1 & H2 & H3 & H4 & H5 & H6).
    cbn in E1, E2, E3, E4, E5, E6.
    rewrite H1, H2, H3, H4, H5, H6, E1, E2, E3, E4, E5, E6.
    repeat split.
Qed.

Lemma ReturnEncodedFrame_recorded (s : Decoder) (f : media.VideoFrame)
    (cb : DecodedImageCallback) :
  decode_complete_callback_ s = Some cb ->
  ReturnEncodedFrame (record_timestamp s (media.timestamp f)) f
  = Some (set_consecutive_error_count
            (set_decoded_calls (record_timestamp s (media.timestamp f))
               (decoded_calls s ++ [(cb, make_rtc_frame f)])) 0).
Proof.
  intro Hcb. unfold ReturnEncodedFrame.
  assert (C : Contains (decode_timestamps_
                          (record_timestamp s (media.timestamp f)))
                (media.timestamp f) = true)
    by (apply Contains_In, record_timestamp_In).
  rewrite C. cbn. rewrite Hcb. reflexivity.
Qed.

Lemma drain_loop_registered (frames : list media.VideoFrame) (s : Decoder)
    (cb : DecodedImageCallback) :
  decode_complete_callback_ s = Some cb ->
  drain_loop frames s = Some (drained s cb frames).
Proof.
  revert s. induction frames as [|f rest IH]; intros s Hcb.
  - cbn. unfold drained. cbn. rewrite app_nil_r, <- Hcb. now destruct s.
  - cbn [drain_loop]. rewrite (ReturnEncodedFrame_recorded s f cb Hcb).
    rewrite IH by exact Hcb. f_equal. unfold drained. cbn.
    rewrite <- app_assoc. cbn. f_equal. now destruct rest.
Qed.

(** ** The three outcomes of [Decode] *)

Local Arguments Nat.leb : simpl never.
Local Arguments Z.ltb : simpl never.

Section DecodeOutcomes.

Variable WrapExternalData_ok : gfx.Size -> EncodedImage -> bool.

(** [Decode] once the early returns are known not to be taken. *)
Lemma Decode_reaches_queue s img missing render :
  reaches_queue WrapExternalData_ok s img missing = true ->
  Decode WrapExternalData_ok s img missing render
  = match queue_for_decoding
            (set_frame_size (set_key_frame_required s false)
               (size_for s img))
            (admitted_frame s img) with
    | (s3, Some rc) => (s3, rc)
    | (s3, None) =>
        (set_posted_tasks s3 (S (posted_tasks s3)), WEBRTC_VIDEO_CODEC_OK)
    end.
Proof.
  intro H. unfold reaches_queue in H.
  apply andb_true_iff in H as [H Hwrap].
  apply andb_true_iff in H as [H Hkey].
  apply andb_true_iff in H as [H Hmiss].
  apply andb_true_iff in H as [Hav Hvp9].
  apply negb_true_iff in Hkey, Hmiss, Hvp9.
  unfold Decode.
  rewrite Hav, Hvp9, Hmiss, Hkey. cbn [negb].
  unfold size_for, admitted_frame, make_encoded_frame, queue_for_decoding,
    gfx.set_height, gfx.set_width.
  destruct s as [vc vct av kfr fs cnt pend ts cb pt calls].
  cbn in Hwrap, Hkey |- *.
  destruct kfr, (is_key_frame img); try discriminate;
    cbn in Hwrap |- *; rewrite Hwrap; cbn;
    destruct (kMaxPendingFrames <=? length pend)%nat; cbn;
    try destruct (kMaxConsecutiveErrors <? wrap_int32 (cnt + 1)); reflexivity.
Qed.

Lemma Decode_overflows s img missing render :
  overflows WrapExternalData_ok s img missing = true ->
  Decode WrapExternalData_ok s img missing render
  = (after_overflow s img,
     if kMaxConsecutiveErrors <? wrap_int32 (consecutive_error_count_ s + 1)
     then WEBRTC_VIDEO_CODEC_FALLBACK_SOFTWARE
     else WEBRTC_VIDEO_CODEC_ERROR).
Proof.
  intro H. unfold overflows in H. apply andb_true_iff in H as [H Hlen].
  rewrite (Decode_reaches_queue _ _ _ _ H).
  unfold queue_for_decoding, after_overflow. cbn. rewrite Hlen.
  destruct (kMaxConsecutiveErrors <? wrap_int32 (consecutive_error_count_ s + 1));
    reflexivity.
Qed.

Lemma Decode_admits s img missing render :
  admits WrapExternalData_ok s img missing = true ->
  Decode WrapExternalData_ok s img missing render = (after_admit s img, WEBRTC_VIDEO_CODEC_OK).
Proof.
  intro H. unfold admits in H. apply andb_true_iff in H as [H Hlen].
  apply negb_true_iff in Hlen.
  rewrite (Decode_reaches_queue _ _ _ _ H).
  unfold queue_for_decoding, after_admit. cbn. rewrite Hlen. reflexivity.
Qed.

Lemma Decode_rejects s img missing render :
  reaches_queue WrapExternalData_ok s img missing = false ->
  let s' := fst (Decode WrapExternalData_ok s img missing render) in
  snd (Decode WrapExternalData_ok s img missing render) <> WEBRTC_VIDEO_CODEC_OK /\
  pending_frames_ s' = pending_frames_ s /\
  decode_timestamps_ s' = decode_timestamps_ s /\
  consecutive_error_count_ s' = consecutive_error_count_ s /\
  posted_tasks s' = posted_tasks s /\
  decoded_calls s' = decoded_calls s /\
  decode_complete_callback_ s' = decode_complete_callback_ s /\
  media_decoder_available_ s' = media_decoder_available_ s.
Proof.
  intro H. unfold reaches_queue in H. unfold Decode.
  destruct (media_decoder_available_ s) eqn:Hav; cbn [negb andb] in H |- *;
    [|cbn; repeat split; first [reflexivity | discriminate | congruence]].
  destruct (VideoCodecType_eqb (video_codec_type_ s) kVideoCodecVP9
            && (0 <? value_or (SpatialIndex img) 0));
    cbn [negb andb] in H |- *; [cbn; repeat split; first [reflexivity | discriminate | congruence]|].
  destruct (missing || negb (_completeFrame img));
    cbn [negb andb] in H |- *; [cbn; repeat split; first [reflexivity | discriminate | congruence]|].
  destruct (key_frame_required_ s && negb (is_key_frame img)) eqn:Hkey;
    cbn [negb andb] in H |- *; [cbn; repeat split; first [reflexivity | discriminate | congruence]|].
  unfold size_for in H. unfold gfx.set_height, gfx.set_width.
  destruct s as [vc vct av kfr fs cnt pend ts cb pt calls].
  cbn in H, Hkey, Hav |- *.
  destruct kfr, (is_key_frame img); try discriminate;
    cbn in H |- *; rewrite H; cbn; cbn; repeat split; first [reflexivity | discriminate | congruence].
Qed.


Lemma outcome_trichotomy s img missing :
  overflows WrapExternalData_ok s img missing = true \/
  admits WrapExternalData_ok s img missing = true \/
  reaches_queue WrapExternalData_ok s img missing = false.
Proof.
  unfold overflows, admits.
  destruct (reaches_queue WrapExternalData_ok s img missing);
    destruct (kMaxPendingFrames <=? length (pending_frames_ s))%nat; auto.
Qed.

End DecodeOutcomes.

(** ** Invariants of executions *)

Lemma wrap_int32_small (z : Z) :
  - 2 ^ 31 <= z <= INT32_MAX -> wrap_int32 z = z.
Proof.
  unfold wrap_int32, INT32_MAX. intro H.
  rewrite Z.mod_small by lia. lia.
Qed.

Lemma drain_loop_delivered (frames : list media.VideoFrame) (s s' : Decoder) :
  drain_loop frames s = Some s' -> delivered s' = delivered s ++ frames.
Proof.
  revert s. induction frames as [|f rest IH]; intros s H.
  - injection H as <-. now rewrite app_nil_r.
  - cbn [drain_loop] in H.
    destruct (decode_complete_callback_ s) as [cb|] eqn:Hcb.
    + rewrite (ReturnEncodedFrame_recorded s f cb Hcb) in H.
      apply IH in H. rewrite H. unfold delivered. cbn.
      rewrite map_app, <- app_assoc. reflexivity.
    + unfold ReturnEncodedFrame in H.
      assert (C : Contains (decode_timestamps_
                              (record_timestamp s (media.timestamp f)))
                    (media.timestamp f) = true)
        by (apply Contains_In, record_timestamp_In).
      rewrite C in H. cbn in H. rewrite Hcb in H. discriminate.
Qed.

Section RunInvariants.

Variable WrapExternalData_ok : gfx.Size -> EncodedImage -> bool.

Lemma Decode_pending_bound s img missing render :
  (length (pending_frames_ s) <= kMaxPendingFrames)%nat ->
  (length (pending_frames_
             (fst (Decode WrapExternalData_ok s img missing render)))
   <= kMaxPendingFrames)%nat.
Proof.
  intro Hlen.
  destruct (outcome_trichotomy WrapExternalData_ok s img missing)
    as [H | [H | H]].
  - rewrite (Decode_overflows _ _ _ _ render H). cbn. lia.
  - rewrite (Decode_admits _ _ _ _ render H). cbn.
    unfold admits in H. apply andb_true_iff in H as [_ H].
    apply negb_true_iff, Nat.leb_gt in H.
    rewrite length_app. cbn. lia.
  - apply (Decode_rejects _ _ _ _ render) in H.
    destruct H as (_ & H & _). now rewrite H.
Qed.

Lemma Decode_history s img missing render :
  let h' := decode_timestamps_
              (fst (Decode WrapExternalData_ok s img missing render)) in
  h' = [] \/ h' = decode_timestamps_ s.
Proof.
  destruct (outcome_trichotomy WrapExternalData_ok s img missing)
    as [H | [H | H]].
  - rewrite (Decode_overflows _ _ _ _ render H). cbn.
    destruct (kMaxConsecutiveErrors
              <? wrap_int32 (consecutive_error_count_ s + 1)); auto.
  - rewrite (Decode_admits _ _ _ _ render H). cbn. auto.
  - apply (Decode_rejects _ _ _ _ render) in H.
    destruct H as (_ & _ & H & _). now right.
Qed.

Lemma Decode_delivered s img missing render :
  delivered (fst (Decode WrapExternalData_ok s img missing render))
  = delivered s.
Proof.
  unfold delivered.
  destruct (outcome_trichotomy WrapExternalData_ok s img missing)
    as [H | [H | H]].
  - now rewrite (Decode_overflows _ _ _ _ render H).
  - now rewrite (Decode_admits _ _ _ _ render H).
  - apply (Decode_rejects _ _ _ _ render) in H.
    destruct H as (_ & _ & _ & _ & _ & H & _). now rewrite H.
Qed.

(** What one action does to the history: nothing, a wholesale clear, or
    the recording of the drained batch. *)
Lemma step_history s a s' :
  step WrapExternalData_ok s a = Some s' ->
  decode_timestamps_ s' = decode_timestamps_ s \/
  decode_timestamps_ s' = [] \/
  (a = RunPostedTask /\
   decode_timestamps_ s'
   = history_after (decode_timestamps_ s) (pending_frames_ s)).
Proof.
  destruct a as [settings cores | img missing render | cb | | | type];
    cbn [step]; intro H; try (injection H as <-).
  - left. now destruct settings.
  - destruct (Decode_history s img missing render) as [E | E]; auto.
  - now left.
  - right. now left.
  - destruct (posted_tasks s) as [|n]; [left; congruence|].
    apply drain_loop_frame in H. destruct H as (_ & H & _).
    right. right. split; [reflexivity | exact H].
  - left. now destruct type.
Qed.

Lemma step_history_bound s a s' :
  (length (decode_timestamps_ s) <= kMaxDecodeHistory)%nat ->
  step WrapExternalData_ok s a = Some s' ->
  (length (decode_timestamps_ s') <= kMaxDecodeHistory)%nat.
Proof.
  intros Hlen H. destruct (step_history _ _ _ H) as [E | [E | [_ E]]];
    rewrite E.
  - exact Hlen.
  - cbn. lia.
  - now apply history_after_length.
Qed.

Lemma step_pending_bound s a s' :
  (length (pending_frames_ s) <= kMaxPendingFrames)%nat ->
  step WrapExternalData_ok s a = Some s' ->
  (length (pending_frames_ s') <= kMaxPendingFrames)%nat.
Proof.
  intro Hlen.
  destruct a as [settings cores | img missing render | cb | | | type];
    cbn [step]; intro H; try (injection H as <-).
  - now destruct settings.
  - now apply Decode_pending_bound.
  - exact Hlen.
  - cbn. lia.
  - destruct (posted_tasks s) as [|n]; [congruence|].
    apply drain_loop_frame in H. destruct H as (H & _).
    rewrite H. cbn. lia.
  - now destruct type.
Qed.

Lemma exec_invariant (P : Decoder -> Prop) :
  (forall s a s', P s -> step WrapExternalData_ok s a = Some s' -> P s') ->
  forall actions s s',
    P s -> exec WrapExternalData_ok s actions = Some s' -> P s'.
Proof.
  intros Hstep. induction actions as [|a rest IH]; intros s s' HP H.
  - injection H as <-. exact HP.
  - cbn [exec] in H.
    destruct (step WrapExternalData_ok s a) as [s1|] eqn:E; [|discriminate].
    eapply IH; [|exact H]. eapply Hstep; eassumption.
Qed.

(** One action moves frames from the queue to the callback, or appends
    the frame it admits; unless it discards, none is lost. *)
Lemma step_fifo s a s' :
  step WrapExternalData_ok s a = Some s' ->
  discards WrapExternalData_ok s a = false ->
  delivered s' ++ pending_frames_ s'
  = delivered s ++ pending_frames_ s ++ admitted_by WrapExternalData_ok s a.
Proof.
  destruct a as [settings cores | img missing render | cb | | | type];
    cbn [step discards admitted_by]; intros H Hd; try (injection H as <-);
    try discriminate.
  - rewrite app_nil_r. now destruct settings.
  - rewrite Decode_delivered.
    destruct (outcome_trichotomy WrapExternalData_ok s img missing)
      as [H | [H | H]]; [congruence| |].
    + rewrite (Decode_admits _ _ _ _ render H), H. reflexivity.
    + unfold admits. rewrite H. cbn [andb]. rewrite app_nil_r.
      apply (Decode_rejects _ _ _ _ render) in H.
      destruct H as (_ & H & _). now rewrite H.
  - now rewrite app_nil_r.
  - rewrite app_nil_r.
    destruct (posted_tasks s) as [|n]; [congruence|].
    pose proof (drain_loop_delivered _ _ _ H) as D.
    apply drain_loop_frame in H. destruct H as (H & _).
    rewrite H, D. cbn. now rewrite app_nil_r.
  - rewrite app_nil_r. now destruct type.
Qed.

Lemma exec_fifo actions : forall s s',
  exec WrapExternalData_ok s actions = Some s' ->
  discard_free WrapExternalData_ok s actions = true ->
  delivered s' ++ pending_frames_ s'
  = delivered s ++ pending_frames_ s
    ++ admitted WrapExternalData_ok s actions.
Proof.
  induction actions as [|a rest IH]; intros s s' H Hd.
  - injection H as <-. cbn. now rewrite app_nil_r.
  - cbn [exec discard_free admitted] in *.
    destruct (step WrapExternalData_ok s a) as [s1|] eqn:E; [|discriminate].
    apply andb_true_iff in Hd as [Hd1 Hd2]. apply negb_true_iff in Hd1.
    rewrite (IH _ _ H Hd2), (app_assoc (delivered s1)),
      (step_fifo _ _ _ E Hd1), <- !app_assoc.
    reflexivity.
Qed.

Lemma step_registered s a :
  decode_complete_callback_ s <> None ->
  keeps_callback a = true ->
  exists s', step WrapExternalData_ok s a = Some s' /\
             decode_complete_callback_ s' <> None.
Proof.
  intros Hcb Hk.
  destruct a as [settings cores | img missing render | cb | | | type];
    cbn [step].
  - eexists. split; [reflexivity|]. now destruct settings.
  - eexists. split; [reflexivity|].
    destruct (outcome_trichotomy WrapExternalData_ok s img missing)
      as [H | [H | H]].
    + now rewrite (Decode_overflows _ _ _ _ render H).
    + now rewrite (Decode_admits _ _ _ _ render H).
    + apply (Decode_rejects _ _ _ _ render) in H.
      destruct H as (_ & _ & _ & _ & _ & _ & H & _). now rewrite H.
  - eexists. split; [reflexivity|]. destruct cb; [discriminate|].
    discriminate.
  - eexists. split; [reflexivity|]. exact Hcb.
  - destruct (posted_tasks s) as [|n]; [now exists s|].
    destruct (decode_complete_callback_ s) as [cb|] eqn:E; [|congruence].
    unfold DecodeOnMediaThread.
    rewrite (drain_loop_registered _ _ cb) by exact E.
    eexists. split; [reflexivity|]. discriminate.
  - eexists. split; [reflexivity|]. now destruct type.
Qed.

Lemma exec_registered actions : forall s,
  decode_complete_callback_ s <> None ->
  forallb keeps_callback actions = true ->
  exists s', exec WrapExternalData_ok s actions = Some s' /\
             decode_complete_callback_ s' <> None.
Proof.
  induction actions as [|a rest IH]; intros s Hcb Hk.
  - now exists s.
  - cbn [forallb] in Hk. apply andb_true_iff in Hk as [Hk1 Hk2].
    destruct (step_registered s a Hcb Hk1) as (s1 & E & Hcb1).
    cbn [exec]. rewrite E. now apply IH.
Qed.

(** While a key frame is required, a frame that is not a key frame leaves
    the decoder as it is. *)
Lemma Decode_nonkey_while_required s img missing render :
  key_frame_required_ s = true ->
  is_key_frame img = false ->
  Decode WrapExternalData_ok s img missing render
  = (s, if media_decoder_available_ s
           && negb (VideoCodecType_eqb (video_codec_type_ s) kVideoCodecVP9
                    && (0 <? value_or (SpatialIndex img) 0))
        then WEBRTC_VIDEO_CODEC_ERROR
        else WEBRTC_VIDEO_CODEC_FALLBACK_SOFTWARE).
Proof.
  intros Hk Hi. unfold Decode. rewrite Hk, Hi.
  destruct (media_decoder_available_ s); cbn [negb andb]; [|reflexivity].
  destruct (VideoCodecType_eqb (video_codec_type_ s) kVideoCodecVP9
            && (0 <? value_or (SpatialIndex img) 0));
    cbn [negb andb]; [reflexivity|].
  destruct (missing || negb (_completeFrame img)); reflexivity.
Qed.

Lemma decode_all_nonkey calls : forall s,
  key_frame_required_ s = true ->
  forallb (fun c => negb (is_key_frame (fst (fst c)))) calls = true ->
  fst (decode_all WrapExternalData_ok s calls) = s /\
  Forall (fun rc => rc = WEBRTC_VIDEO_CODEC_ERROR \/
                    rc = WEBRTC_VIDEO_CODEC_FALLBACK_SOFTWARE)
    (snd (decode_all WrapExternalData_ok s calls)).
Proof.
  induction calls as [|[[img missing] render] rest IH]; intros s Hk Hall.
  - split; [reflexivity | constructor].
  - cbn [forallb fst] in Hall. apply andb_true_iff in Hall as [Hi Hall].
    apply negb_true_iff in Hi. cbn [decode_all].
    rewrite (Decode_nonkey_while_required _ _ missing render Hk Hi).
    destruct (IH s Hk Hall) as [E F].
    destruct (decode_all WrapExternalData_ok s rest) as [s2 rcs].
    cbn [fst snd] in *. split; [exact E|]. constructor; [|exact F].
    destruct (media_decoder_available_ s
              && negb (VideoCodecType_eqb (video_codec_type_ s) kVideoCodecVP9
                       && (0 <? value_or (SpatialIndex img) 0))); auto.
Qed.

Lemma decode_all_app calls1 : forall s calls2,
  decode_all WrapExternalData_ok s (calls1 ++ calls2)
  = (fst (decode_all WrapExternalData_ok
            (fst (decode_all WrapExternalData_ok s calls1)) calls2),
     snd (decode_all WrapExternalData_ok s calls1)
     ++ snd (decode_all WrapExternalData_ok
               (fst (decode_all WrapExternalData_ok s calls1)) calls2)).
Proof.
  induction calls1 as [|[[img missing] render] rest IH]; intros s calls2.
  - cbn. now destruct (decode_all WrapExternalData_ok s calls2).
  - cbn [decode_all app].
    destruct (Decode WrapExternalData_ok s img missing render) as [s1 rc].
    rewrite IH.
    destruct (decode_all WrapExternalData_ok s1 rest) as [s2 rcs].
    reflexivity.
Qed.

Lemma overflow_count_app calls1 : forall s calls2,
  overflow_count WrapExternalData_ok s (calls1 ++ calls2)
  = (overflow_count WrapExternalData_ok s calls1
     + overflow_count WrapExternalData_ok
         (fst (decode_all WrapExternalData_ok s calls1)) calls2)%nat.
Proof.
  induction calls1 as [|[[img missing] render] rest IH]; intros s calls2.
  - reflexivity.
  - cbn [overflow_count decode_all app]. rewrite IH.
    destruct (Decode WrapExternalData_ok s img missing render) as [s1 rc].
    cbn [fst].
    destruct (decode_all WrapExternalData_ok s1 rest) as [s2 rcs].
    cbn [fst]. lia.
Qed.

(** Along a run of [Decode] calls the error counter counts the overflows. *)
Lemma decode_all_count calls : forall s,
  0 <= consecutive_error_count_ s ->
  consecutive_error_count_ s
  + Z.of_nat (overflow_count WrapExternalData_ok s calls) <= INT32_MAX ->
  consecutive_error_count_ (fst (decode_all WrapExternalData_ok s calls))
  = consecutive_error_count_ s
    + Z.of_nat (overflow_count WrapExternalData_ok s calls).
Proof.
  induction calls as [|[[img missing] render] rest IH]; intros s H0 Hmax.
  - cbn. lia.
  - cbn [overflow_count decode_all] in *.
    destruct (Decode WrapExternalData_ok s img missing render)
      as [s1 rc] eqn:E.
    cbn [fst] in *.
    destruct (decode_all WrapExternalData_ok s1 rest) as [s2 rcs] eqn:E2.
    cbn [fst].
    assert (C : consecutive_error_count_ s1
                = consecutive_error_count_ s
                  + Z.of_nat (if overflows WrapExternalData_ok s img missing
                              then 1 else 0)).
    { destruct (outcome_trichotomy WrapExternalData_ok s img missing)
        as [H | [H | H]].
      - rewrite (Decode_overflows _ _ _ _ render H) in E.
        injection E as <- _. rewrite H in *. cbn.
        apply wrap_int32_small. unfold INT32_MAX in *. lia.
      - pose proof H as H'. unfold admits in H'. unfold overflows.
        apply andb_true_iff in H' as [Hr Hl]. apply negb_true_iff in Hl.
        rewrite Hr, Hl. cbn.
        rewrite (Decode_admits _ _ _ _ render H) in E.
        injection E as <- _. cbn. lia.
      - unfold overflows. rewrite H. cbn.
        apply (Decode_rejects _ _ _ _ render) in H. rewrite E in H.
        cbn in H. lia. }
    specialize (IH s1). rewrite E2 in IH. cbn [fst] in IH.
    rewrite IH; lia.
Qed.

End RunInvariants.

(** * The claims *)

(** ** InitDecode *)

(** C10: [InitDecode] called with a null settings pointer returns
    [WEBRTC_VIDEO_CODEC_ERR_PARAMETER] and hands back the decoder exactly as
    it was: the key-frame flag, the codec type, the pending queue, the
    timestamp history and the error counter are all untouched. *)
Theorem InitDecode_null_changes_nothing :
  forall (s : Decoder) (number_of_cores : Z),
    InitDecode s None number_of_cores = (s, WEBRTC_VIDEO_CODEC_ERR_PARAMETER).
Proof. reflexivity. Qed.

(** C7: [InitDecode] returns the parameter error exactly when the settings
    pointer is null; otherwise it sets [key_frame_required_], stores the codec
    type of the settings, changes nothing else, and returns OK if and only if
    [media_decoder_available_] holds, UNINITIALIZED if not. *)
Theorem InitDecode_contract :
  forall (s : Decoder) (codec_settings : option webrtc.VideoCodec)
         (number_of_cores : Z),
    let r := InitDecode s codec_settings number_of_cores in
    (snd r = WEBRTC_VIDEO_CODEC_ERR_PARAMETER <-> codec_settings = None) /\
    match codec_settings with
    | None => True
    | Some settings =>
        fst r = set_video_codec_type (set_key_frame_required s true)
                  (codecType settings) /\
        key_frame_required_ (fst r) = true /\
        video_codec_type_ (fst r) = codecType settings /\
        (snd r = WEBRTC_VIDEO_CODEC_OK
         <-> media_decoder_available_ s = true) /\
        (snd r = WEBRTC_VIDEO_CODEC_UNINITIALIZED
         <-> media_decoder_available_ s = false)
    end.
Proof.
  intros s [settings|] cores; cbn.
  - split; [split; [|discriminate]|].
    + destruct (media_decoder_available_ s); discriminate.
    + repeat split; destruct (media_decoder_available_ s);
        intros; try reflexivity; try discriminate; congruence.
  - repeat split; reflexivity.
Qed.

(** ** Release *)

(** C6, as the code has it: [Release] empties the pending queue and the
    timestamp history from any state and leaves every other member as it
    was, the error counter included; a second [Release] returns the same
    code and the same decoder as the first. *)
Theorem Release_clears_and_is_idempotent :
  forall s : Decoder,
    let r := Release s in
    pending_frames_ (fst r) = [] /\
    decode_timestamps_ (fst r) = [] /\
    consecutive_error_count_ (fst r) = consecutive_error_count_ s /\
    key_frame_required_ (fst r) = key_frame_required_ s /\
    media_decoder_available_ (fst r) = media_decoder_available_ s /\
    video_codec_type_ (fst r) = video_codec_type_ s /\
    frame_size_ (fst r) = frame_size_ s /\
    decode_complete_callback_ (fst r) = decode_complete_callback_ s /\
    decoded_calls (fst r) = decoded_calls s /\
    snd r = (if media_decoder_available_ s then WEBRTC_VIDEO_CODEC_OK
             else WEBRTC_VIDEO_CODEC_UNINITIALIZED) /\
    Release (fst r) = r.
Proof. intro s. cbn. repeat split. Qed.

(** C6, as the spec has it, fails: after one queue overflow the error
    counter is 1, and [Release] leaves it at 1. *)
Lemma Release_keeps_error_count :
  consecutive_error_count_ overflowed_decoder = 1 /\
  consecutive_error_count_ (fst (Release overflowed_decoder)) <> 0.
Proof. split; [vm_compute; reflexivity | vm_compute; discriminate]. Qed.

(** ** The result sink *)

(** C5: [ReturnEncodedFrame] on a frame whose timestamp is not in the
    history changes nothing (no call of the callback); on a frame whose
    timestamp is in the history it calls the registered callback with the
    frame and sets the error counter to zero. *)
Theorem ReturnEncodedFrame_checks_history :
  forall (s : Decoder) (f : media.VideoFrame),
    (~ In (media.timestamp f) (decode_timestamps_ s) ->
     ReturnEncodedFrame s f = Some s) /\
    (In (media.timestamp f) (decode_timestamps_ s) ->
     forall cb, decode_complete_callback_ s = Some cb ->
       exists s',
         ReturnEncodedFrame s f = Some s' /\
         decoded_calls s' = decoded_calls s ++ [(cb, make_rtc_frame f)] /\
         consecutive_error_count_ s' = 0 /\
         pending_frames_ s' = pending_frames_ s /\
         decode_timestamps_ s' = decode_timestamps_ s).
Proof.
  intros s f. unfold ReturnEncodedFrame. split.
  - intro H. apply Contains_not_In in H. now rewrite H.
  - intros H cb Hcb. apply Contains_In in H. rewrite H, Hcb. cbn.
    eexists. split; [reflexivity|]. cbn. repeat split.
Qed.

Lemma ReturnEncodedFrame_checks_history_witness :
  ReturnEncodedFrame recorded_decoder (admitted_frame sample_decoder (key_image 6))
  = Some recorded_decoder /\
  exists s',
    ReturnEncodedFrame recorded_decoder
      (admitted_frame sample_decoder (key_image 5)) = Some s' /\
    decoded_calls s'
    = [(1%nat, make_rtc_frame (admitted_frame sample_decoder (key_image 5)))] /\
    consecutive_error_count_ s' = 0.
Proof.
  split.
  - apply (ReturnEncodedFrame_checks_history recorded_decoder
             (admitted_frame sample_decoder (key_image 6))).
    vm_compute. intros [H | []]. discriminate.
  - destruct (ReturnEncodedFrame_checks_history recorded_decoder
                (admitted_frame sample_decoder (key_image 5))) as [_ H].
    assert (Hin : In 5 (decode_timestamps_ recorded_decoder))
      by (vm_compute; left; reflexivity).
    assert (Hcb : decode_complete_callback_ recorded_decoder = Some 1%nat)
      by (vm_compute; reflexivity).
    destruct (H Hin 1%nat Hcb) as (s' & E & C & Z0 & _).
    exists s'. repeat split; assumption.
Defined.

(** ** The drain *)

(** C9: with a callback registered, [DecodeOnMediaThread] never takes the
    discard branch of [ReturnEncodedFrame]: right after a frame's timestamp
    is recorded it is the newest entry of the history, so the membership
    test succeeds; every frame of the batch is passed to the callback, in
    order, the queue is left empty, and a non-empty batch leaves the error
    counter at zero. *)
Theorem drain_delivers_every_frame :
  forall (s : Decoder) (cb : DecodedImageCallback),
    decode_complete_callback_ s = Some cb ->
    (forall (s1 : Decoder) (f : media.VideoFrame),
        exists older,
          decode_timestamps_ (record_timestamp s1 (media.timestamp f))
          = older ++ [media.timestamp f] /\
          Contains (decode_timestamps_
                      (record_timestamp s1 (media.timestamp f)))
            (media.timestamp f) = true) /\
    exists s',
      DecodeOnMediaThread s = Some s' /\
      decoded_calls s'
      = decoded_calls s
        ++ map (fun f => (cb, make_rtc_frame f)) (pending_frames_ s) /\
      pending_frames_ s' = [] /\
      (pending_frames_ s <> [] -> consecutive_error_count_ s' = 0) /\
      (pending_frames_ s = [] ->
       consecutive_error_count_ s' = consecutive_error_count_ s).
Proof.
  intros s cb Hcb. split.
  - intros s1 f. exists (evict_oldest (decode_timestamps_ s1)).
    split; [reflexivity|]. apply Contains_In, record_timestamp_In.
  - unfold DecodeOnMediaThread.
    rewrite (drain_loop_registered _ _ cb) by exact Hcb.
    eexists. split; [reflexivity|]. cbn. repeat split.
    + intro H. destruct (pending_frames_ s); [contradiction | reflexivity].
    + intro H. now rewrite H.
Qed.

Lemma drain_delivers_every_frame_witness :
  exists s',
    DecodeOnMediaThread full_decoder = Some s' /\
    length (decoded_calls s') = 8%nat /\
    pending_frames_ s' = [] /\
    consecutive_error_count_ s' = 0.
Proof.
  assert (Hcb : decode_complete_callback_ full_decoder = Some 1%nat)
    by (vm_compute; reflexivity).
  destruct (drain_delivers_every_frame full_decoder 1%nat Hcb)
    as (_ & s' & E & C & P & Z0 & _).
  exists s'. split; [exact E|]. split; [rewrite C; vm_compute; reflexivity|].
  split; [exact P|]. apply Z0. vm_compute. discriminate.
Defined.

(** C8: along every execution that starts with at most
    [kMaxDecodeHistory] recorded timestamps the history never holds more
    than [kMaxDecodeHistory]; recording a timestamp keeps the newest
    [kMaxDecodeHistory] of the old entries followed by the new one (the
    oldest go first); an action leaves the history alone, clears it, or (the
    drain) records the timestamps of the drained batch in queue order; and
    [ReturnEncodedFrame] depends on the history only through the membership
    of the frame's timestamp. *)
Theorem timestamp_history_bounded :
  forall (WrapExternalData_ok : gfx.Size -> EncodedImage -> bool)
         (s0 : Decoder) (actions : list Action) (s : Decoder),
    (length (decode_timestamps_ s0) <= kMaxDecodeHistory)%nat ->
    exec WrapExternalData_ok s0 actions = Some s ->
    (length (decode_timestamps_ s) <= kMaxDecodeHistory)%nat /\
    (forall t,
        decode_timestamps_ (record_timestamp s t)
        = keep_last kMaxDecodeHistory (decode_timestamps_ s ++ [t]) /\
        (length (decode_timestamps_ (record_timestamp s t))
         <= kMaxDecodeHistory)%nat) /\
    (forall a s',
        step WrapExternalData_ok s a = Some s' ->
        decode_timestamps_ s' = decode_timestamps_ s \/
        decode_timestamps_ s' = [] \/
        (a = RunPostedTask /\
         decode_timestamps_ s'
         = keep_last kMaxDecodeHistory
             (decode_timestamps_ s
              ++ map media.timestamp (pending_frames_ s)))) /\
    (forall f h',
        (In (media.timestamp f) h'
         <-> In (media.timestamp f) (decode_timestamps_ s)) ->
        ReturnEncodedFrame (set_decode_timestamps s h') f
        = option_map (fun x => set_decode_timestamps x h')
            (ReturnEncodedFrame s f)).
Proof.
  intros wrap s0 actions s H0 Hexec.
  assert (Hs : (length (decode_timestamps_ s) <= kMaxDecodeHistory)%nat).
  { refine (exec_invariant wrap
              (fun x => (length (decode_timestamps_ x)
                         <= kMaxDecodeHistory)%nat) _ actions s0 s H0 Hexec).
    intros; eapply step_history_bound; eassumption. }
  split; [exact Hs|]. split; [|split].
  - intro t. cbn. rewrite record_keep_last.
    split; [reflexivity | apply keep_last_length].
  - intros a s' Hstep.
    destruct (step_history _ _ _ _ Hstep) as [E | [E | [Ea E]]]; auto.
    right. right. split; [exact Ea|].
    rewrite E. now apply history_after_keep_last.
  - intros f h' Hiff. unfold ReturnEncodedFrame.
    change (decode_timestamps_ (set_decode_timestamps s h')) with h'.
    assert (C : Contains h' (media.timestamp f)
                = Contains (decode_timestamps_ s) (media.timestamp f)).
    { destruct (Contains (decode_timestamps_ s) (media.timestamp f)) eqn:E.
      - apply Contains_In, Hiff, Contains_In, E.
      - apply Contains_not_In. intro Hin. apply Hiff in Hin.
        apply Contains_In in Hin. congruence. }
    rewrite C.
    destruct (Contains (decode_timestamps_ s) (media.timestamp f)); cbn.
    + now destruct (decode_complete_callback_ s).
    + reflexivity.
Qed.

Lemma timestamp_history_bounded_witness :
  exists s,
    exec nonempty_size_ok sample_decoder forty_frames_drained = Some s /\
    length (decode_timestamps_ s) = 32%nat /\
    decode_timestamps_ (record_timestamp s 100)
    = keep_last kMaxDecodeHistory (decode_timestamps_ s ++ [100]).
Proof.
  destruct (exec nonempty_size_ok sample_decoder forty_frames_drained)
    as [s|] eqn:E; [|vm_compute in E; discriminate].
  exists s. split; [reflexivity|].
  destruct (timestamp_history_bounded nonempty_size_ok sample_decoder
              forty_frames_drained s) as (_ & R & _).
  - vm_compute. lia.
  - exact E.
  - split; [|apply R].
    vm_compute in E. injection E as <-. reflexivity.
Defined.

(** ** The pending queue *)

(** C2: along every execution that starts with at most [kMaxPendingFrames]
    queued frames the queue never holds more than [kMaxPendingFrames]; and
    when a [Decode] call gets as far as the push with the queue holding
    [kMaxPendingFrames] frames, it leaves the queue empty (its own frame is
    not enqueued and no drain is posted), sets [key_frame_required_], adds
    one to the error counter, and returns the one code of the overflow:
    ERROR, or FALLBACK_SOFTWARE once the counter is past
    [kMaxConsecutiveErrors]. *)
Theorem queue_overflow_policy :
  forall (WrapExternalData_ok : gfx.Size -> EncodedImage -> bool)
         (s0 : Decoder) (actions : list Action) (s : Decoder)
         (input_image : EncodedImage) (missing_frames : bool)
         (render_time_ms : Z),
    (length (pending_frames_ s0) <= kMaxPendingFrames)%nat ->
    exec WrapExternalData_ok s0 actions = Some s ->
    (length (pending_frames_ s) <= kMaxPendingFrames)%nat /\
    (reaches_queue WrapExternalData_ok s input_image missing_frames = true ->
     length (pending_frames_ s) = kMaxPendingFrames ->
     0 <= consecutive_error_count_ s < INT32_MAX ->
     let r := Decode WrapExternalData_ok s input_image missing_frames
                render_time_ms in
     pending_frames_ (fst r) = [] /\
     key_frame_required_ (fst r) = true /\
     consecutive_error_count_ (fst r) = consecutive_error_count_ s + 1 /\
     posted_tasks (fst r) = posted_tasks s /\
     decoded_calls (fst r) = decoded_calls s /\
     snd r = (if kMaxConsecutiveErrors <? consecutive_error_count_ s + 1
              then WEBRTC_VIDEO_CODEC_FALLBACK_SOFTWARE
              else WEBRTC_VIDEO_CODEC_ERROR)).
Proof.
  intros wrap s0 actions s img missing render H0 Hexec.
  split.
  - refine (exec_invariant wrap
              (fun x => (length (pending_frames_ x)
                         <= kMaxPendingFrames)%nat) _ actions s0 s H0 Hexec).
    intros; eapply step_pending_bound; eassumption.
  - intros Hr Hfull Hcount r. subst r.
    assert (Ho : overflows wrap s img missing = true).
    { unfold overflows. rewrite Hr, Hfull. reflexivity. }
    rewrite (Decode_overflows _ _ _ _ render Ho).
    rewrite wrap_int32_small by (unfold INT32_MAX in *; lia).
    cbn. rewrite wrap_int32_small by (unfold INT32_MAX in *; lia).
    repeat split.
Qed.

Lemma queue_overflow_policy_witness :
  exists s,
    exec nonempty_size_ok sample_decoder eight_decodes = Some s /\
    length (pending_frames_ s) = 8%nat /\
    let r := Decode nonempty_size_ok s (key_image 8) false 0 in
    pending_frames_ (fst r) = [] /\
    key_frame_required_ (fst r) = true /\
    consecutive_error_count_ (fst r) = 1 /\
    snd r = WEBRTC_VIDEO_CODEC_ERROR.
Proof.
  destruct (exec nonempty_size_ok sample_decoder eight_decodes)
    as [s|] eqn:E; [|vm_compute in E; discriminate].
  exists s. split; [reflexivity|].
  assert (Es : s = full_decoder)
    by (vm_compute in E; injection E as <-; vm_compute; reflexivity).
  destruct (queue_overflow_policy nonempty_size_ok sample_decoder
              eight_decodes s (key_image 8) false 0) as (_ & H).
  - vm_compute. lia.
  - exact E.
  - split; [rewrite Es; vm_compute; reflexivity|].
    assert (Hr : reaches_queue nonempty_size_ok s (key_image 8) false = true)
      by (rewrite Es; vm_compute; reflexivity).
    assert (Hl : length (pending_frames_ s) = kMaxPendingFrames)
      by (rewrite Es; vm_compute; reflexivity).
    assert (Hc : 0 <= consecutive_error_count_ s < INT32_MAX)
      by (rewrite Es; vm_compute; split; [discriminate | reflexivity]).
    destruct (H Hr Hl Hc) as (P & K & C & _ & _ & R).
    repeat split; try assumption.
    + rewrite C, Es. vm_compute. reflexivity.
    + rewrite R, Es. vm_compute. reflexivity.
Defined.

(** C4: in every execution without overflow and without [Release] in
    which a callback stays registered, the frames handed to the callback
    followed by the frames still queued are, in order, the frames that were
    delivered or queued at the start followed by the frames admitted since;
    one more drain hands over everything that is queued, so the frames
    handed over are exactly the admitted ones in admission order, within
    one drain and across drains.  A frame is handed over only when its
    timestamp is in the history, where the drain records it first.  (No
    assumption on the timestamps is needed.) *)
Theorem drain_is_fifo :
  forall (WrapExternalData_ok : gfx.Size -> EncodedImage -> bool)
         (s0 : Decoder) (actions : list Action),
    decode_complete_callback_ s0 <> None ->
    forallb keeps_callback actions = true ->
    discard_free WrapExternalData_ok s0 actions = true ->
    exists s s',
      exec WrapExternalData_ok s0 actions = Some s /\
      delivered s ++ pending_frames_ s
      = delivered s0 ++ pending_frames_ s0
        ++ admitted WrapExternalData_ok s0 actions /\
      DecodeOnMediaThread s = Some s' /\
      delivered s' = delivered s ++ pending_frames_ s /\
      pending_frames_ s' = [] /\
      decode_timestamps_ s'
      = history_after (decode_timestamps_ s) (pending_frames_ s) /\
      (forall st f st',
          ReturnEncodedFrame st f = Some st' ->
          decoded_calls st' <> decoded_calls st ->
          In (media.timestamp f) (decode_timestamps_ st)) /\
      (forall st f rest,
          drain_loop (f :: rest) st
          = match ReturnEncodedFrame
                    (record_timestamp st (media.timestamp f)) f with
            | Some st2 => drain_loop rest st2
            | None => None
            end).
Proof.
  intros wrap s0 actions Hcb Hk Hd.
  destruct (exec_registered wrap actions s0 Hcb Hk) as (s & E & Hcb').
  destruct (decode_complete_callback_ s) as [cb|] eqn:Ecb; [|congruence].
  exists s, (drained (set_pending_frames s []) cb (pending_frames_ s)).
  split; [exact E|]. split; [now apply exec_fifo|].
  assert (D : DecodeOnMediaThread s
              = Some (drained (set_pending_frames s []) cb (pending_frames_ s))).
  { unfold DecodeOnMediaThread. now apply drain_loop_registered. }
  split; [exact D|]. split; [|split; [reflexivity|split; [reflexivity|split]]].
  - unfold DecodeOnMediaThread in D. apply drain_loop_delivered in D.
    exact D.
  - intros st f st'. unfold ReturnEncodedFrame.
    destruct (Contains (decode_timestamps_ st) (media.timestamp f)) eqn:C.
    + intros _ _. now apply Contains_In.
    + cbn. intros H Hneq. injection H as <-. contradiction.
  - reflexivity.
Qed.

Lemma drain_is_fifo_witness :
  exists s s',
    exec nonempty_size_ok sample_decoder interleaved_actions = Some s /\
    DecodeOnMediaThread s = Some s' /\
    map media.timestamp (delivered s') = [5; 6; 7; 8] /\
    delivered s'
    = admitted nonempty_size_ok sample_decoder interleaved_actions.
Proof.
  assert (Hcb : decode_complete_callback_ sample_decoder <> None)
    by (vm_compute; discriminate).
  assert (Hk : forallb keeps_callback interleaved_actions = true)
    by (vm_compute; reflexivity).
  assert (Hd : discard_free nonempty_size_ok sample_decoder
                 interleaved_actions = true)
    by (vm_compute; reflexivity).
  destruct (drain_is_fifo nonempty_size_ok sample_decoder
              interleaved_actions Hcb Hk Hd)
    as (s & s' & E & F & D & Dl & _).
  exists s, s'. split; [exact E|]. split; [exact D|].
  rewrite Dl, F. split; vm_compute; reflexivity.
Defined.

(** ** Escalation after repeated overflows *)

(** C1, as the code has it: in a run of [Decode] calls (no drain, hence no
    delivery, in between) that starts with a non-negative error counter, the
    overflow that takes the counter past [kMaxConsecutiveErrors] returns
    FALLBACK_SOFTWARE and leaves the queue and the timestamp history empty
    and [key_frame_required_] set.  [media_decoder_available_] stays true:
    the next [Decode] is judged as any other, and one that gets as far as
    the push is enqueued and returns OK. *)
Theorem overflow_escalation :
  forall (WrapExternalData_ok : gfx.Size -> EncodedImage -> bool)
         (s0 : Decoder) (calls : list (EncodedImage * bool * Z))
         (input_image : EncodedImage) (missing_frames : bool)
         (render_time_ms : Z),
    let s1 := fst (decode_all WrapExternalData_ok s0 calls) in
    let total :=
      consecutive_error_count_ s0
      + Z.of_nat (overflow_count WrapExternalData_ok s0
                    (calls ++ [(input_image, missing_frames, render_time_ms)]))
    in
    0 <= consecutive_error_count_ s0 ->
    overflows WrapExternalData_ok s1 input_image missing_frames = true ->
    kMaxConsecutiveErrors < total <= INT32_MAX ->
    let r := Decode WrapExternalData_ok s1 input_image missing_frames
               render_time_ms in
    snd r = WEBRTC_VIDEO_CODEC_FALLBACK_SOFTWARE /\
    pending_frames_ (fst r) = [] /\
    decode_timestamps_ (fst r) = [] /\
    key_frame_required_ (fst r) = true /\
    consecutive_error_count_ (fst r) = total /\
    media_decoder_available_ (fst r) = true /\
    (forall img missing render,
        reaches_queue WrapExternalData_ok (fst r) img missing = true ->
        Decode WrapExternalData_ok (fst r) img missing render
        = (after_admit (fst r) img, WEBRTC_VIDEO_CODEC_OK)).
Proof.
  intros wrap s0 calls img missing render s1 total H0 Ho Htotal r.
  assert (Eoc : overflow_count wrap s0 (calls ++ [(img, missing, render)])
                = (overflow_count wrap s0 calls + 1)%nat).
  { rewrite overflow_count_app. cbn [overflow_count]. unfold s1 in Ho.
    rewrite Ho. lia. }
  assert (Hs1 : consecutive_error_count_ s1
                = consecutive_error_count_ s0
                  + Z.of_nat (overflow_count wrap s0 calls)).
  { unfold s1. apply decode_all_count; [exact H0|].
    unfold total in Htotal. rewrite Eoc in Htotal. lia. }
  assert (Et : total = consecutive_error_count_ s1 + 1).
  { unfold total. rewrite Eoc, Hs1. lia. }
  assert (Hav : media_decoder_available_ s1 = true).
  { unfold overflows, reaches_queue in Ho.
    destruct (media_decoder_available_ s1); [reflexivity | discriminate]. }
  assert (Hc : 0 <= consecutive_error_count_ s1) by lia.
  assert (Er : r = (after_overflow s1 img,
                    WEBRTC_VIDEO_CODEC_FALLBACK_SOFTWARE)).
  { subst r. rewrite (Decode_overflows _ _ _ _ render Ho).
    rewrite wrap_int32_small by (unfold INT32_MAX in *; lia).
    replace (kMaxConsecutiveErrors <? consecutive_error_count_ s1 + 1)
      with true by (symmetry; apply Z.ltb_lt; lia).
    reflexivity. }
  assert (Elt : (kMaxConsecutiveErrors
                 <? wrap_int32 (consecutive_error_count_ s1 + 1)) = true).
  { rewrite wrap_int32_small by (unfold INT32_MAX in *; lia).
    apply Z.ltb_lt. lia. }
  rewrite Er. cbn [fst snd].
  split; [reflexivity|]. split; [reflexivity|].
  split; [cbn; now rewrite Elt|]. split; [reflexivity|].
  split; [cbn; rewrite wrap_int32_small by (unfold INT32_MAX in *; lia); lia|].
  split; [exact Hav|].
  intros img' missing' render' Hr. apply Decode_admits.
  unfold admits. rewrite Hr. reflexivity.
Qed.

Lemma overflow_escalation_witness :
  let r := Decode nonempty_size_ok
             (fst (decode_all nonempty_size_ok sample_decoder
                     (removelast escalation_calls)))
             (key_image 548) false 0 in
  snd r = WEBRTC_VIDEO_CODEC_FALLBACK_SOFTWARE /\
  pending_frames_ (fst r) = [] /\
  decode_timestamps_ (fst r) = [] /\
  key_frame_required_ (fst r) = true /\
  consecutive_error_count_ (fst r) = 61 /\
  media_decoder_available_ (fst r) = true.
Proof.
  intro r.
  assert (H0 : 0 <= consecutive_error_count_ sample_decoder)
    by (vm_compute; discriminate).
  assert (Ho : overflows nonempty_size_ok
                 (fst (decode_all nonempty_size_ok sample_decoder
                         (removelast escalation_calls)))
                 (key_image 548) false = true)
    by (vm_compute; reflexivity).
  assert (Ht : kMaxConsecutiveErrors
               < consecutive_error_count_ sample_decoder
                 + Z.of_nat (overflow_count nonempty_size_ok sample_decoder
                               (removelast escalation_calls
                                ++ [(key_image 548, false, 0)]))
               <= INT32_MAX)
    by (vm_compute; split; [reflexivity | discriminate]).
  destruct (overflow_escalation nonempty_size_ok sample_decoder
              (removelast escalation_calls) (key_image 548) false 0 H0 Ho Ht)
    as (R & P & T & K & C & A & _).
  subst r. repeat split; assumption.
Defined.

(** C1, as the spec has it, fails: after 61 overflows in a row, the last of
    which returned FALLBACK_SOFTWARE and cleared the history, the decoder is
    still marked available, and the next [Decode] returns OK for a key frame
    and ERROR for a delta frame, not FALLBACK_SOFTWARE. *)
Lemma escalation_does_not_latch :
  overflow_count nonempty_size_ok sample_decoder escalation_calls = 61%nat /\
  last (snd (decode_all nonempty_size_ok sample_decoder escalation_calls))
    WEBRTC_VIDEO_CODEC_OK = WEBRTC_VIDEO_CODEC_FALLBACK_SOFTWARE /\
  consecutive_error_count_ escalated_decoder = 61 /\
  decode_timestamps_ escalated_decoder = [] /\
  media_decoder_available_ escalated_decoder = true /\
  snd (Decode nonempty_size_ok escalated_decoder (key_image 600) false 0)
  <> WEBRTC_VIDEO_CODEC_FALLBACK_SOFTWARE /\
  snd (Decode nonempty_size_ok escalated_decoder (delta_image 600) false 0)
  <> WEBRTC_VIDEO_CODEC_FALLBACK_SOFTWARE.
Proof. vm_compute. repeat split; discriminate. Qed.

(** ** The key-frame gate *)

(** C3, as the code has it: [InitDecode], a queue overflow and the
    key-frame-request notification set [key_frame_required_].  While it is
    set, a [Decode] with a frame that is not a key frame changes nothing and
    enqueues nothing; it returns ERROR when the decoder is available and the
    frame is not a VP9 frame of spatial index above 0, FALLBACK_SOFTWARE
    otherwise; so any run of such calls leaves the decoder as it was.  A key
    frame that passes the earlier checks (decoder available, not VP9 above
    spatial index 0, nothing missing, complete) has its coded width and
    height stored as the frame size, and it clears the flag, is enqueued
    and returns OK when the frame can be built and fewer than
    [kMaxPendingFrames] frames are queued. *)
Theorem key_frame_gate :
  forall (WrapExternalData_ok : gfx.Size -> EncodedImage -> bool)
         (s : Decoder) (input_image : EncodedImage) (missing_frames : bool)
         (render_time_ms : Z),
    key_frame_required_ s = true ->
    (forall s1 settings cores,
        key_frame_required_ (fst (InitDecode s1 (Some settings) cores)) = true)
    /\
    (forall s1 img missing render,
        overflows WrapExternalData_ok s1 img missing = true ->
        key_frame_required_
          (fst (Decode WrapExternalData_ok s1 img missing render)) = true) /\
    (forall s1,
        key_frame_required_ (OnMediaPlayerNotifyCb s1 media.kKeyFrameRequest)
        = true) /\
    (is_key_frame input_image = false ->
     Decode WrapExternalData_ok s input_image missing_frames render_time_ms
     = (s, if media_decoder_available_ s
              && negb (VideoCodecType_eqb (video_codec_type_ s) kVideoCodecVP9
                       && (0 <? value_or (SpatialIndex input_image) 0))
           then WEBRTC_VIDEO_CODEC_ERROR
           else WEBRTC_VIDEO_CODEC_FALLBACK_SOFTWARE)) /\
    (forall calls,
        forallb (fun c => negb (is_key_frame (fst (fst c)))) calls = true ->
        fst (decode_all WrapExternalData_ok s calls) = s /\
        Forall (fun rc => rc = WEBRTC_VIDEO_CODEC_ERROR \/
                          rc = WEBRTC_VIDEO_CODEC_FALLBACK_SOFTWARE)
          (snd (decode_all WrapExternalData_ok s calls))) /\
    (is_key_frame input_image = true ->
     media_decoder_available_ s = true ->
     VideoCodecType_eqb (video_codec_type_ s) kVideoCodecVP9
     && (0 <? value_or (SpatialIndex input_image) 0) = false ->
     missing_frames || negb (_completeFrame input_image) = false ->
     let r := Decode WrapExternalData_ok s input_image missing_frames
                render_time_ms in
     frame_size_ (fst r)
     = {| gfx.width := _encodedWidth input_image;
          gfx.height := _encodedHeight input_image |} /\
     (WrapExternalData_ok (frame_size_ (fst r)) input_image = true ->
      (length (pending_frames_ s) < kMaxPendingFrames)%nat ->
      snd r = WEBRTC_VIDEO_CODEC_OK /\
      key_frame_required_ (fst r) = false /\
      pending_frames_ (fst r)
      = pending_frames_ s ++ [admitted_frame s input_image] /\
      fst r = after_admit s input_image)).
Proof.
  intros wrap s img missing render Hk.
  split; [reflexivity|]. split; [|split; [reflexivity|split; [|split]]].
  - intros s1 img1 missing1 render1 Ho.
    now rewrite (Decode_overflows _ _ _ _ render1 Ho).
  - intro Hi. now apply Decode_nonkey_while_required.
  - intros calls Hall. now apply decode_all_nonkey.
  - intros Hi Hav Hvp9 Hmiss r.
    assert (Hsize : frame_size_ (fst r)
                    = {| gfx.width := _encodedWidth img;
                         gfx.height := _encodedHeight img |}).
    { subst r. unfold Decode. rewrite Hav, Hvp9, Hmiss, Hk, Hi.
      cbn [negb andb]. unfold queue_for_decoding.
      repeat match goal with
             | |- context [if ?b then _ else _] => destruct b
             end; reflexivity. }
    split; [exact Hsize|]. rewrite Hsize. intros Hw Hlen.
    assert (Ha : admits wrap s img missing = true).
    { unfold admits, reaches_queue.
      rewrite Hav, Hvp9, Hmiss, Hk, Hi, Hw. cbn.
      apply negb_true_iff, Nat.leb_gt. exact Hlen. }
    subst r. rewrite (Decode_admits _ _ _ _ render Ha). cbn.
    repeat split.
Qed.

Lemma key_frame_gate_witness :
  Decode nonempty_size_ok sample_decoder (delta_image 1) false 0
  = (sample_decoder, WEBRTC_VIDEO_CODEC_ERROR) /\
  let r := Decode nonempty_size_ok sample_decoder (key_image 2) false 0 in
  frame_size_ (fst r) = {| gfx.width := 640; gfx.height := 480 |} /\
  snd r = WEBRTC_VIDEO_CODEC_OK /\
  key_frame_required_ (fst r) = false /\
  pending_frames_ (fst r) = [admitted_frame sample_decoder (key_image 2)].
Proof.
  split.
  - destruct (key_frame_gate nonempty_size_ok sample_decoder (delta_image 1)
                false 0 eq_refl) as (_ & _ & _ & H & _).
    exact (H eq_refl).
  - destruct (key_frame_gate nonempty_size_ok sample_decoder (key_image 2)
                false 0 eq_refl) as (_ & _ & _ & _ & _ & H).
    destruct (H eq_refl eq_refl eq_refl eq_refl) as (Hs & Ha).
    split; [exact Hs|].
    assert (Hw : nonempty_size_ok
                   (frame_size_
                      (fst (Decode nonempty_size_ok sample_decoder
                              (key_image 2) false 0)))
                   (key_image 2) = true) by (vm_compute; reflexivity).
    assert (Hl : (length (pending_frames_ sample_decoder)
                  < kMaxPendingFrames)%nat) by (vm_compute; lia).
    destruct (Ha Hw Hl) as (R & K & P & _).
    repeat split; assumption.
Defined.

(** C3, as the spec has it, fails in both halves.  With the key frame
    required and the decoder marked unavailable by a pipeline error, a delta
    frame is answered with FALLBACK_SOFTWARE, not ERROR.  With eight frames
    queued and a key-frame request notified, the next key frame is not
    admitted: the call returns ERROR, the queue is emptied and the
    requirement is set again.  A key frame flagged as missing frames is
    rejected with ERROR and the requirement stays. *)
Lemma key_frame_gate_exceptions :
  (let s := OnMediaPlayerNotifyCb sample_decoder media.kPipelineError in
   key_frame_required_ s = true /\
   snd (Decode nonempty_size_ok s (delta_image 1) false 0)
   <> WEBRTC_VIDEO_CODEC_ERROR) /\
  (let s := OnMediaPlayerNotifyCb full_decoder media.kKeyFrameRequest in
   let r := Decode nonempty_size_ok s (key_image 9) false 0 in
   key_frame_required_ s = true /\
   snd r <> WEBRTC_VIDEO_CODEC_OK /\
   pending_frames_ (fst r) = [] /\
   key_frame_required_ (fst r) = true) /\
  (let r := Decode nonempty_size_ok sample_decoder (key_image 9) true 0 in
   snd r <> WEBRTC_VIDEO_CODEC_OK /\
   pending_frames_ (fst r) = [] /\
   key_frame_required_ (fst r) = true).
Proof. vm_compute. repeat split; discriminate. Qed.

(** * Further properties of the decoder *)

Section DecoderFacts.

Variable WrapExternalData_ok : gfx.Size -> EncodedImage -> bool.

Lemma Decode_unavailable s img missing render :
  media_decoder_available_ s = false ->
  Decode WrapExternalData_ok s img missing render
  = (s, WEBRTC_VIDEO_CODEC_FALLBACK_SOFTWARE).
Proof. intro H. unfold Decode. now rewrite H. Qed.


(** What [Decode] never touches. *)
Lemma Decode_untouched s img missing render :
  let s' := fst (Decode WrapExternalData_ok s img missing render) in
  video_codec_ s' = video_codec_ s /\
  video_codec_type_ s' = video_codec_type_ s /\
  media_decoder_available_ s' = media_decoder_available_ s /\
  decode_complete_callback_ s' = decode_complete_callback_ s /\
  decoded_calls s' = decoded_calls s.
Proof.
  unfold Decode, queue_for_decoding. cbv zeta.
  repeat match goal with
         | |- context [if ?b then _ else _] => destruct b
         end; cbn; repeat split.
Qed.

Lemma drain_loop_video_codec l : forall st st',
  drain_loop l st = Some st' ->
  video_codec_ st' = video_codec_ st /\
  video_codec_type_ st' = video_codec_type_ st /\
  frame_size_ st' = frame_size_ st.
Proof.
  induction l as [|f rest IH]; intros st st' E.
  - injection E as <-. repeat split.
  - cbn [drain_loop] in E. unfold ReturnEncodedFrame in E.
    destruct (negb (Contains
                      (decode_timestamps_
                         (record_timestamp st (media.timestamp f)))
                      (media.timestamp f))).
    + now apply IH in E.
    + destruct (decode_complete_callback_
                  (record_timestamp st (media.timestamp f)));
        [|discriminate].
      now apply IH in E.
Qed.

Lemma step_video_codec s a s' :
  step WrapExternalData_ok s a = Some s' -> video_codec_ s' = video_codec_ s.
Proof.
  destruct a as [settings cores | img missing render | cb | | | type];
    cbn [step]; intro H; try (injection H as <-).
  - now destruct settings.
  - apply Decode_untouched.
  - reflexivity.
  - reflexivity.
  - destruct (posted_tasks s) as [|n]; [congruence|].
    apply drain_loop_video_codec in H. now destruct H as [H _].
  - now destruct type.
Qed.

End DecoderFacts.

(** ** Availability *)



(** ** The return codes of Decode *)

(** X2: the decision table of [Decode].  It returns OK exactly when the
    frame passes the gates, can be built and finds room in the queue;
    NO_OUTPUT exactly when the frame passes the gates and cannot be built;
    FALLBACK_SOFTWARE exactly when the decoder is unavailable, or the codec
    is VP9 and the spatial index is above 0, or the call overflows the queue
    and takes the error counter past [kMaxConsecutiveErrors]; ERROR exactly
    when, the decoder being available and the frame not such a VP9 frame,
    the frame is missing or incomplete, or is not a key frame while one is
    required, or the call overflows the queue with the counter still within
    the limit.  It never returns ERR_PARAMETER or UNINITIALIZED. *)
Theorem Decode_return_codes :
  forall (WrapExternalData_ok : gfx.Size -> EncodedImage -> bool)
         (s : Decoder) (input_image : EncodedImage) (missing_frames : bool)
         (render_time_ms : Z),
    let rc := snd (Decode WrapExternalData_ok s input_image missing_frames
                     render_time_ms) in
    let vp9_upper_layer :=
      VideoCodecType_eqb (video_codec_type_ s) kVideoCodecVP9
      && (0 <? value_or (SpatialIndex input_image) 0) in
    let past_limit :=
      kMaxConsecutiveErrors <? wrap_int32 (consecutive_error_count_ s + 1) in
    (rc = WEBRTC_VIDEO_CODEC_OK
     <-> admits WrapExternalData_ok s input_image missing_frames = true) /\
    (rc = WEBRTC_VIDEO_CODEC_NO_OUTPUT
     <-> passes_gates s input_image missing_frames = true /\
         WrapExternalData_ok (size_for s input_image) input_image = false) /\
    (rc = WEBRTC_VIDEO_CODEC_FALLBACK_SOFTWARE
     <-> media_decoder_available_ s = false \/
         vp9_upper_layer = true \/
         (overflows WrapExternalData_ok s input_image missing_frames = true /\
          past_limit = true)) /\
    (rc = WEBRTC_VIDEO_CODEC_ERROR
     <-> media_decoder_available_ s = true /\
         vp9_upper_layer = false /\
         (missing_frames || negb (_completeFrame input_image) = true \/
          key_frame_required_ s && negb (is_key_frame input_image) = true \/
          (overflows WrapExternalData_ok s input_image missing_frames = true /\
           past_limit = false))) /\
    rc <> WEBRTC_VIDEO_CODEC_ERR_PARAMETER /\
    rc <> WEBRTC_VIDEO_CODEC_UNINITIALIZED.
Proof.
  intros wrap s img missing render.
  unfold Decode, admits, overflows, reaches_queue, passes_gates, size_for,
    queue_for_decoding, gfx.set_height, gfx.set_width.
  destruct s as [vc vct av kfr fs cnt pend ts cb pt calls].
  cbn [media_decoder_available_ video_codec_type_ key_frame_required_
       frame_size_ consecutive_error_count_ pending_frames_].
  destruct av; cbn [negb andb];
    [|cbn; intuition (try discriminate; try congruence)].
  destruct (VideoCodecType_eqb vct kVideoCodecVP9
            && (0 <? value_or (SpatialIndex img) 0));
    cbn [negb andb]; [cbn; intuition (try discriminate; try congruence)|].
  destruct (missing || negb (_completeFrame img));
    cbn [negb andb]; [cbn; intuition (try discriminate; try congruence)|].
  destruct kfr, (is_key_frame img); cbn [negb andb];
    try (cbn; intuition (try discriminate; try congruence); fail);
    cbn [frame_size_ set_frame_size set_key_frame_required gfx.height
         gfx.width];
    match goal with
    | |- context [wrap ?sz img] => destruct (wrap sz img)
    end; cbn [negb andb];
    try (cbn; intuition (try discriminate; try congruence); fail);
    cbn [pending_frames_ set_frame_size set_key_frame_required
         set_pending_frames consecutive_error_count_
         set_consecutive_error_count];
    destruct (kMaxPendingFrames <=? length pend)%nat; cbn [negb andb];
    try (cbn; intuition (try discriminate; try congruence); fail);
    destruct (kMaxConsecutiveErrors <? wrap_int32 (cnt + 1));
    cbn; intuition (try discriminate; try congruence).
Qed.

Lemma Decode_return_codes_witness :
  snd (Decode nonempty_size_ok full_decoder (key_image 8) false 0)
  = WEBRTC_VIDEO_CODEC_ERROR /\
  snd (Decode nonempty_size_ok sample_decoder (key_image 0) false 0)
  = WEBRTC_VIDEO_CODEC_OK.
Proof.
  split.
  - destruct (Decode_return_codes nonempty_size_ok full_decoder (key_image 8)
                false 0) as (_ & _ & _ & H & _).
    apply H. vm_compute. repeat split. right. right. split; reflexivity.
  - destruct (Decode_return_codes nonempty_size_ok sample_decoder
                (key_image 0) false 0) as (H & _).
    apply H. vm_compute. reflexivity.
Defined.

(** X3: [Decode] posts a drain task exactly when it returns OK, and then it
    has appended exactly its own frame to the queue; with any other code no
    task is posted and the queue is either untouched or emptied.  [Decode]
    itself never calls the completion callback. *)
Theorem Decode_posts_iff_ok :
  forall (WrapExternalData_ok : gfx.Size -> EncodedImage -> bool)
         (s : Decoder) (input_image : EncodedImage) (missing_frames : bool)
         (render_time_ms : Z),
    let r := Decode WrapExternalData_ok s input_image missing_frames
               render_time_ms in
    (snd r = WEBRTC_VIDEO_CODEC_OK ->
     posted_tasks (fst r) = S (posted_tasks s) /\
     pending_frames_ (fst r)
     = pending_frames_ s ++ [admitted_frame s input_image]) /\
    (snd r <> WEBRTC_VIDEO_CODEC_OK ->
     posted_tasks (fst r) = posted_tasks s /\
     (pending_frames_ (fst r) = pending_frames_ s \/
      pending_frames_ (fst r) = [])) /\
    decoded_calls (fst r) = decoded_calls s.
Proof.
  intros wrap s img missing render r. subst r.
  split; [|split]; [| |apply Decode_untouched].
  - destruct (outcome_trichotomy wrap s img missing) as [H | [H | H]].
    + rewrite (Decode_overflows _ _ _ _ render H). cbn.
      destruct (kMaxConsecutiveErrors
                <? wrap_int32 (consecutive_error_count_ s + 1));
        discriminate.
    + rewrite (Decode_admits _ _ _ _ render H). cbn. now split.
    + apply (Decode_rejects _ _ _ _ render) in H. destruct H as (H & _).
      intro E. contradiction.
  - destruct (outcome_trichotomy wrap s img missing) as [H | [H | H]].
    + rewrite (Decode_overflows _ _ _ _ render H). cbn. auto.
    + rewrite (Decode_admits _ _ _ _ render H). cbn. intro E. now elim E.
    + apply (Decode_rejects _ _ _ _ render) in H.
      destruct H as (_ & Hp & _ & _ & Ht & _). auto.
Qed.

Lemma Decode_posts_iff_ok_witness :
  posted_tasks (fst (Decode nonempty_size_ok sample_decoder (key_image 0)
                       false 0)) = 1%nat /\
  posted_tasks (fst (Decode nonempty_size_ok full_decoder (key_image 8)
                       false 0)) = 8%nat.
Proof.
  split.
  - destruct (Decode_posts_iff_ok nonempty_size_ok sample_decoder
                (key_image 0) false 0) as (H & _).
    destruct H as [H _]; [vm_compute; reflexivity|].
    rewrite H. reflexivity.
  - destruct (Decode_posts_iff_ok nonempty_size_ok full_decoder
                (key_image 8) false 0) as (_ & H & _).
    destruct H as [H _]; [vm_compute; discriminate|].
    rewrite H. vm_compute. reflexivity.
Defined.

(** ** Queue and drain tasks *)

(** X4: along every execution that starts with at least as many posted
    drain tasks as queued frames, there are never more queued frames than
    posted drain tasks: a frame in the queue always has a drain still to
    run. *)
Theorem queued_frames_have_a_posted_drain :
  forall (WrapExternalData_ok : gfx.Size -> EncodedImage -> bool)
         (s0 : Decoder) (actions : list Action) (s : Decoder),
    (length (pending_frames_ s0) <= posted_tasks s0)%nat ->
    exec WrapExternalData_ok s0 actions = Some s ->
    (length (pending_frames_ s) <= posted_tasks s)%nat /\
    (pending_frames_ s <> [] -> posted_tasks s <> O).
Proof.
  intros wrap s0 actions s H0 Hexec.
  assert (I : (length (pending_frames_ s) <= posted_tasks s)%nat).
  { refine (exec_invariant wrap
              (fun x => (length (pending_frames_ x) <= posted_tasks x)%nat)
              _ actions s0 s H0 Hexec).
    clear. intros s a s' Hlen.
    destruct a as [settings cores | img missing render | cb | | | type];
      cbn [step]; intro H; try (injection H as <-).
    - now destruct settings.
    - destruct (outcome_trichotomy wrap s img missing) as [H | [H | H]].
      + rewrite (Decode_overflows _ _ _ _ render H). cbn. lia.
      + rewrite (Decode_admits _ _ _ _ render H). cbn.
        rewrite length_app. cbn. lia.
      + apply (Decode_rejects _ _ _ _ render) in H.
        destruct H as (_ & Hp & _ & _ & Ht & _). rewrite Hp, Ht. exact Hlen.
    - exact Hlen.
    - cbn. lia.
    - destruct (posted_tasks s) as [|n] eqn:E.
      + injection H as <-. now rewrite E.
      + apply drain_loop_frame in H. destruct H as (H & _). rewrite H.
        cbn. lia.
    - now destruct type. }
  split; [exact I|].
  intros Hne Hz. rewrite Hz in I. destruct (pending_frames_ s);
    [now apply Hne | cbn in I; lia].
Qed.

Lemma queued_frames_have_a_posted_drain_witness :
  exists s,
    exec nonempty_size_ok sample_decoder interleaved_actions = Some s /\
    (length (pending_frames_ s) <= posted_tasks s)%nat.
Proof.
  destruct (exec nonempty_size_ok sample_decoder interleaved_actions)
    as [s|] eqn:E; [|vm_compute in E; discriminate].
  exists s. split; [reflexivity|].
  apply (queued_frames_have_a_posted_drain nonempty_size_ok sample_decoder
           interleaved_actions s).
  - vm_compute. lia.
  - exact E.
Defined.

(** X5: draining is idempotent: a second [DecodeOnMediaThread] right after
    a first finds the queue empty and changes nothing. *)
Theorem drain_twice_is_drain_once :
  forall s s' : Decoder,
    DecodeOnMediaThread s = Some s' ->
    pending_frames_ s' = [] /\ DecodeOnMediaThread s' = Some s'.
Proof.
  intros s s' H. unfold DecodeOnMediaThread in H.
  apply drain_loop_frame in H. destruct H as (H & _). cbn in H.
  split; [exact H|]. unfold DecodeOnMediaThread. rewrite H. cbn.
  destruct s'. cbn in H. now subst.
Qed.

Lemma drain_twice_is_drain_once_witness :
  exists s',
    DecodeOnMediaThread full_decoder = Some s' /\
    DecodeOnMediaThread s' = Some s'.
Proof.
  destruct (DecodeOnMediaThread full_decoder) as [s'|] eqn:E;
    [|vm_compute in E; discriminate].
  exists s'. split; [reflexivity|].
  apply (drain_twice_is_drain_once full_decoder s' E).
Defined.

(** ** Callback registration *)

(** X6: the drain delivers to the callback registered when it runs, not to
    the one registered when the frames were queued: after
    [RegisterDecodeCompleteCallback] with a new callback, every queued frame
    goes to the new one.  The pointer is stored whatever code the
    registration returns. *)
Theorem drain_uses_the_current_callback :
  forall (s : Decoder) (callback : DecodedImageCallback),
    let s1 := fst (RegisterDecodeCompleteCallback s (Some callback)) in
    decode_complete_callback_ s1 = Some callback /\
    pending_frames_ s1 = pending_frames_ s /\
    exists s',
      DecodeOnMediaThread s1 = Some s' /\
      decoded_calls s'
      = decoded_calls s
        ++ map (fun f => (callback, make_rtc_frame f)) (pending_frames_ s).
Proof.
  intros s cb s1. split; [reflexivity|]. split; [reflexivity|].
  unfold DecodeOnMediaThread.
  rewrite (drain_loop_registered _ _ cb) by reflexivity.
  eexists. split; reflexivity.
Qed.

(** ** Frames that cannot be built *)

(** X7: when a frame passes the gates but [WrapExternalData] returns no
    frame, [Decode] returns NO_OUTPUT, queues nothing, posts nothing and
    leaves history and error counter alone; the effects of the gates stay:
    the key-frame requirement is cleared and, for a key frame, its
    dimensions are the new frame size. *)
Theorem Decode_no_output :
  forall (WrapExternalData_ok : gfx.Size -> EncodedImage -> bool)
         (s : Decoder) (input_image : EncodedImage) (missing_frames : bool)
         (render_time_ms : Z),
    passes_gates s input_image missing_frames = true ->
    WrapExternalData_ok (size_for s input_image) input_image = false ->
    let r := Decode WrapExternalData_ok s input_image missing_frames
               render_time_ms in
    snd r = WEBRTC_VIDEO_CODEC_NO_OUTPUT /\
    fst r = set_frame_size (set_key_frame_required s false)
              (size_for s input_image) /\
    key_frame_required_ (fst r) = false /\
    frame_size_ (fst r) = size_for s input_image /\
    pending_frames_ (fst r) = pending_frames_ s /\
    posted_tasks (fst r) = posted_tasks s /\
    decode_timestamps_ (fst r) = decode_timestamps_ s /\
    consecutive_error_count_ (fst r) = consecutive_error_count_ s.
Proof.
  intros wrap s img missing render Hg Hw r.
  assert (E : r = (set_frame_size (set_key_frame_required s false)
                     (size_for s img), WEBRTC_VIDEO_CODEC_NO_OUTPUT)).
  { subst r. unfold passes_gates in Hg.
    apply andb_true_iff in Hg as [Hg Hkey].
    apply andb_true_iff in Hg as [Hg Hmiss].
    apply andb_true_iff in Hg as [Hav Hvp9].
    apply negb_true_iff in Hkey, Hmiss, Hvp9.
    unfold Decode. rewrite Hav, Hvp9, Hmiss, Hkey. cbn [negb].
    unfold size_for, gfx.set_height, gfx.set_width in *.
    destruct s as [vc vct av kfr fs cnt pend ts cb pt calls].
    cbn in Hw, Hkey |- *.
    destruct kfr, (is_key_frame img); try discriminate;
      cbn in Hw |- *; rewrite Hw; reflexivity. }
  rewrite E. cbn. repeat split.
Qed.

Lemma Decode_no_output_witness :
  let r := Decode nonempty_size_ok sample_decoder empty_key_image false 0 in
  snd r = WEBRTC_VIDEO_CODEC_NO_OUTPUT /\
  key_frame_required_ (fst r) = false /\
  pending_frames_ (fst r) = [].
Proof.
  intro r.
  assert (Hg : passes_gates sample_decoder empty_key_image false = true)
    by (vm_compute; reflexivity).
  assert (Hw : nonempty_size_ok (size_for sample_decoder empty_key_image)
                 empty_key_image = false) by (vm_compute; reflexivity).
  destruct (Decode_no_output nonempty_size_ok sample_decoder empty_key_image
              false 0 Hg Hw) as (R & _ & K & _ & P & _).
  subst r. repeat split; assumption.
Defined.

(** ** Frame tags *)

(** X8: the codec a decoder was constructed with never changes, and every
    frame it queues or hands to the callback carries it as CODEC_ID:
    if the queued and delivered frames are tagged with [video_codec_] at the
    start of an execution, they are at every later point. *)
Theorem frames_carry_the_decoder_codec :
  forall (WrapExternalData_ok : gfx.Size -> EncodedImage -> bool)
         (s0 : Decoder) (actions : list Action) (s : Decoder),
    tagged_with (video_codec_ s0) (pending_frames_ s0) ->
    tagged_with (video_codec_ s0) (delivered s0) ->
    exec WrapExternalData_ok s0 actions = Some s ->
    video_codec_ s = video_codec_ s0 /\
    tagged_with (video_codec_ s0) (pending_frames_ s) /\
    tagged_with (video_codec_ s0) (delivered s).
Proof.
  intros wrap s0 actions s Hp Hd Hexec.
  refine (exec_invariant wrap
            (fun x => video_codec_ x = video_codec_ s0 /\
                      tagged_with (video_codec_ s0) (pending_frames_ x) /\
                      tagged_with (video_codec_ s0) (delivered x))
            _ actions s0 s _ Hexec); [|now repeat split].
  clear. intros s a s' (Hc & Hp & Hd) Hstep.
  split; [rewrite <- Hc; eapply step_video_codec; eassumption|].
  unfold tagged_with in *.
  destruct a as [settings cores | img missing render | cb | | | type];
    cbn [step] in Hstep; try (injection Hstep as <-).
  - now destruct settings.
  - rewrite Decode_delivered. split; [|exact Hd].
    destruct (outcome_trichotomy wrap s img missing) as [H | [H | H]].
    + rewrite (Decode_overflows _ _ _ _ render H). constructor.
    + rewrite (Decode_admits _ _ _ _ render H). cbn.
      apply Forall_app. split; [exact Hp|].
      constructor; [exact Hc | constructor].
    + apply (Decode_rejects _ _ _ _ render) in H.
      destruct H as (_ & H & _). now rewrite H.
  - now split.
  - split; [constructor | exact Hd].
  - destruct (posted_tasks s) as [|n]; [injection Hstep as <-; now split|].
    pose proof (drain_loop_delivered _ _ _ Hstep) as D.
    apply drain_loop_frame in Hstep. destruct Hstep as (H & _).
    rewrite H, D. cbn. split; [constructor|].
    apply Forall_app. now split.
  - now destruct type.
Qed.

Lemma frames_carry_the_decoder_codec_witness :
  exists s,
    exec nonempty_size_ok sample_decoder interleaved_actions = Some s /\
    tagged_with media.kCodecVP8 (pending_frames_ s) /\
    tagged_with media.kCodecVP8 (delivered s).
Proof.
  destruct (exec nonempty_size_ok sample_decoder interleaved_actions)
    as [s|] eqn:E; [|vm_compute in E; discriminate].
  exists s. split; [reflexivity|].
  destruct (frames_carry_the_decoder_codec nonempty_size_ok sample_decoder
              interleaved_actions s) as (_ & P & D).
  - vm_compute. constructor.
  - vm_compute. constructor.
  - exact E.
  - split; assumption.
Defined.

(** ** From Decode to the callback *)

(** X9: round trip of one frame.  With a callback registered, a [Decode]
    that enqueues its frame followed by the posted drain hands the callback
    the frames that were queued before and then this frame, whose RTP
    timestamp is the image's 32-bit timestamp, whose data is the image's
    data and whose key-frame tag is the image's frame type; the queue is
    empty afterwards and the error counter is zero. *)
Theorem decode_then_drain_round_trip :
  forall (WrapExternalData_ok : gfx.Size -> EncodedImage -> bool)
         (s : Decoder) (input_image : EncodedImage) (missing_frames : bool)
         (render_time_ms : Z) (callback : DecodedImageCallback),
    decode_complete_callback_ s = Some callback ->
    admits WrapExternalData_ok s input_image missing_frames = true ->
    0 <= Timestamp input_image < 2 ^ 32 ->
    exists s' rtc_frame,
      exec WrapExternalData_ok s
        [CallDecode input_image missing_frames render_time_ms; RunPostedTask]
      = Some s' /\
      decoded_calls s'
      = decoded_calls s
        ++ map (fun f => (callback, make_rtc_frame f)) (pending_frames_ s)
        ++ [(callback, rtc_frame)] /\
      timestamp_rtp rtc_frame = Timestamp input_image /\
      media.frame_data (video_frame_buffer rtc_frame) = data input_image /\
      media.KEY_FRAME (video_frame_buffer rtc_frame)
      = is_key_frame input_image /\
      pending_frames_ s' = [] /\
      posted_tasks s' = posted_tasks s /\
      consecutive_error_count_ s' = 0.
Proof.
  intros wrap s img missing render cb Hcb Ha Hts.
  eexists. exists (make_rtc_frame (admitted_frame s img)).
  cbn [exec step]. rewrite (Decode_admits _ _ _ _ render Ha).
  cbn [fst after_admit posted_tasks]. unfold DecodeOnMediaThread.
  rewrite (drain_loop_registered _ _ cb) by exact Hcb.
  split; [reflexivity|]. cbn.
  rewrite map_app. cbn. split; [reflexivity|].
  split; [unfold cast_uint32; apply Z.mod_small; exact Hts|].
  repeat split. now destruct (pending_frames_ s).
Qed.

Lemma decode_then_drain_round_trip_witness :
  exists s' rtc_frame,
    exec nonempty_size_ok sample_decoder
      [CallDecode (key_image 4000000000) false 0; RunPostedTask] = Some s' /\
    decoded_calls s' = [(1%nat, rtc_frame)] /\
    timestamp_rtp rtc_frame = 4000000000.
Proof.
  assert (Hcb : decode_complete_callback_ sample_decoder = Some 1%nat)
    by reflexivity.
  assert (Ha : admits nonempty_size_ok sample_decoder (key_image 4000000000)
                 false = true) by (vm_compute; reflexivity).
  assert (Ht : 0 <= Timestamp (key_image 4000000000) < 2 ^ 32)
    by (vm_compute; split; [discriminate | reflexivity]).
  destruct (decode_then_drain_round_trip nonempty_size_ok sample_decoder
              (key_image 4000000000) false 0 1%nat Hcb Ha Ht)
    as (s' & rtc & E & C & T & _).
  exists s', rtc. repeat split; assumption.
Defined.

(** ** The history as a window *)

Lemma In_skipn_In {A : Type} (x : A) (n : nat) (l : list A) :
  In x (skipn n l) -> In x l.
Proof.
  intro H. rewrite <- (firstn_skipn n l). apply in_or_app. now right.
Qed.

Lemma record_timestamps_history (later : list Z) : forall s,
  (length (decode_timestamps_ s) <= kMaxDecodeHistory)%nat ->
  decode_timestamps_ (record_timestamps s later)
  = keep_last kMaxDecodeHistory (decode_timestamps_ s ++ later).
Proof.
  unfold record_timestamps.
  induction later as [|t rest IH]; intros s Hlen.
  - cbn. rewrite app_nil_r. symmetry. now apply keep_last_all.
  - cbn [fold_left]. rewrite IH.
    + cbn [record_timestamp decode_timestamps_ set_decode_timestamps].
      rewrite record_keep_last, keep_last_app, <- app_assoc. reflexivity.
    + cbn. rewrite length_app. cbn [length].
      pose proof (evict_oldest_length (decode_timestamps_ s)). lia.
Qed.

Lemma record_timestamps_frame (later : list Z) : forall s,
  decode_complete_callback_ (record_timestamps s later)
  = decode_complete_callback_ s /\
  decoded_calls (record_timestamps s later) = decoded_calls s.
Proof.
  unfold record_timestamps.
  induction later as [|t rest IH]; intro s; [now split|].
  cbn [fold_left]. destruct (IH (record_timestamp s t)) as [E1 E2].
  now rewrite E1, E2.
Qed.

(** X10: the history is a window of the last [kMaxDecodeHistory]
    recordings.  A recorded timestamp is still in the history after up to
    [kMaxDecodeHistory - 1] further recordings; after [kMaxDecodeHistory] or
    more recordings of other timestamps it is gone, and a frame with that
    timestamp presented to [ReturnEncodedFrame] is then discarded. *)
Theorem history_is_a_window :
  forall (s : Decoder) (t : Z) (later : list Z),
    let s' := record_timestamps s (t :: later) in
    ((length later < kMaxDecodeHistory)%nat ->
     Contains (decode_timestamps_ s') t = true) /\
    ((kMaxDecodeHistory <= length later)%nat ->
     ~ In t later ->
     Contains (decode_timestamps_ s') t = false /\
     forall f, media.timestamp f = t -> ReturnEncodedFrame s' f = Some s').
Proof.
  intros s t later s'.
  assert (E : decode_timestamps_ s'
              = keep_last kMaxDecodeHistory
                  ((evict_oldest (decode_timestamps_ s) ++ [t]) ++ later)).
  { subst s'. unfold record_timestamps. cbn [fold_left].
    fold (record_timestamps (record_timestamp s t) later).
    rewrite record_timestamps_history; [reflexivity|].
    cbn. rewrite length_app. cbn [length].
    pose proof (evict_oldest_length (decode_timestamps_ s)). lia. }
  pose proof (evict_oldest_length (decode_timestamps_ s)) as Hl.
  set (a := evict_oldest (decode_timestamps_ s)) in *.
  unfold kMaxDecodeHistory in *.
  split.
  - intro Hlen. apply Contains_In. rewrite E. unfold keep_last.
    rewrite <- app_assoc, !length_app. cbn [length].
    rewrite skipn_app.
    replace (length a + (1 + length later) - 32 - length a)%nat with O
      by lia.
    apply in_or_app. right. cbn. now left.
  - intros Hlen Hnot.
    assert (C : Contains (decode_timestamps_ s') t = false).
    { apply Contains_not_In. rewrite E. unfold keep_last.
      rewrite !length_app. cbn [length]. rewrite skipn_app.
      rewrite skipn_all2 by (rewrite length_app; cbn [length]; lia).
      cbn [app]. intro Hin. apply In_skipn_In in Hin. contradiction. }
    split; [exact C|].
    intros f Hf. unfold ReturnEncodedFrame. rewrite Hf, C. reflexivity.
Qed.

Lemma history_is_a_window_witness :
  Contains (decode_timestamps_
              (record_timestamps sample_decoder (7 :: thirty_two_later))) 7
  = false /\
  Contains (decode_timestamps_
              (record_timestamps sample_decoder
                 (7 :: removelast thirty_two_later))) 7
  = true.
Proof.
  split.
  - destruct (history_is_a_window sample_decoder 7 thirty_two_later)
      as [_ H].
    apply H.
    + vm_compute. lia.
    + vm_compute. intuition discriminate.
  - destruct (history_is_a_window sample_decoder 7
                (removelast thirty_two_later)) as [H _].
    apply H. vm_compute. lia.
Defined.

(** ** Release and late work *)

(** X11: [Release] drops what was queued: a drain task that runs after
    [Release] finds nothing and calls nothing, and any frame presented to
    [ReturnEncodedFrame] after [Release] is discarded, because the history
    is empty. *)
Theorem Release_drops_queued_frames :
  forall s : Decoder,
    let s1 := fst (Release s) in
    DecodeOnMediaThread s1 = Some s1 /\
    (forall f, ReturnEncodedFrame s1 f = Some s1) /\
    decoded_calls s1 = decoded_calls s.
Proof. intro s. cbn. repeat split. Qed.

(** ** Construction *)

(** X12: [Create] returns a decoder only for payload names whose codec type
    is VP8, VP9 or H264, and only when the platform reports a capability
    for the upper-cased codec name; the decoder is then the default members
    with [video_codec_] set to the codec of that type.  For every other
    codec type, and without a capability, it returns null. *)
Theorem Create_only_for_supported_codecs :
  forall (PayloadStringToCodecType : String.string -> VideoCodecType)
         (GetCodecName : media.VideoCodec -> String.string)
         (ToUpperASCII : String.string -> String.string)
         (MediaCodecCapability : Type)
         (GetMediaCodecCapabilityForCodec :
            String.string -> option MediaCodecCapability)
         (default_members : Decoder) (sdp_format_name : String.string),
    let type := PayloadStringToCodecType sdp_format_name in
    let capability :=
      GetMediaCodecCapabilityForCodec
        (ToUpperASCII (GetCodecName (ToVideoCodec type))) in
    match Create PayloadStringToCodecType GetCodecName ToUpperASCII
            MediaCodecCapability GetMediaCodecCapabilityForCodec
            default_members sdp_format_name with
    | Some decoder =>
        (type = kVideoCodecVP8 \/ type = kVideoCodecVP9 \/
         type = kVideoCodecH264) /\
        capability <> None /\
        decoder = set_video_codec default_members (ToVideoCodec type) /\
        video_codec_ decoder <> media.kUnknownVideoCodec
    | None =>
        (type <> kVideoCodecVP8 /\ type <> kVideoCodecVP9 /\
         type <> kVideoCodecH264) \/
        capability = None
    end.
Proof.
  intros P G U C cap d name type capability. unfold Create.
  fold type. subst capability.
  destruct type; cbn; try (left; repeat split; discriminate);
    match goal with
    | |- context [cap ?n] => destruct (cap n)
    end;
    try (right; reflexivity);
    repeat split; auto; discriminate.
Qed.

(** ** Frame sizes *)

Lemma Decode_delta_frame_size
    (WrapExternalData_ok : gfx.Size -> EncodedImage -> bool)
    s img missing render :
  is_key_frame img = false ->
  frame_size_ (fst (Decode WrapExternalData_ok s img missing render))
  = frame_size_ s.
Proof.
  intro Hk. unfold Decode, queue_for_decoding. rewrite Hk. cbv zeta.
  repeat match goal with
         | |- context [if ?b then _ else _] => destruct b
         end; reflexivity.
Qed.

(** X13: frames that are not key frames never change [frame_size_], and
    the ones [Decode] enqueues carry it as their coded size: if the queued
    frames have the current frame size as coded size, they still do after
    any run of [Decode] calls with frames that are not key frames. *)
Theorem delta_frames_inherit_the_frame_size :
  forall (WrapExternalData_ok : gfx.Size -> EncodedImage -> bool)
         (calls : list (EncodedImage * bool * Z)) (s : Decoder),
    forallb (fun c => negb (is_key_frame (fst (fst c)))) calls = true ->
    Forall (fun f => media.coded_size f = frame_size_ s) (pending_frames_ s) ->
    let s' := fst (decode_all WrapExternalData_ok s calls) in
    frame_size_ s' = frame_size_ s /\
    Forall (fun f => media.coded_size f = frame_size_ s) (pending_frames_ s').
Proof.
  intros wrap. induction calls as [|[[img missing] render] rest IH];
    intros s Hall Hp; [now split|].
  cbn [forallb fst] in Hall. apply andb_true_iff in Hall as [Hi Hall].
  apply negb_true_iff in Hi. cbn [decode_all].
  pose proof (Decode_delta_frame_size wrap s img missing render Hi) as Hs.
  assert (Hq : Forall (fun f => media.coded_size f = frame_size_ s)
                 (pending_frames_ (fst (Decode wrap s img missing render)))).
  { destruct (outcome_trichotomy wrap s img missing) as [H | [H | H]].
    - rewrite (Decode_overflows _ _ _ _ render H). constructor.
    - rewrite (Decode_admits _ _ _ _ render H). cbn.
      apply Forall_app. split; [exact Hp|].
      constructor; [|constructor]. cbn. now rewrite Hi.
    - apply (Decode_rejects _ _ _ _ render) in H.
      destruct H as (_ & H & _). now rewrite H. }
  destruct (Decode wrap s img missing render) as [s1 rc]. cbn [fst] in *.
  specialize (IH s1 Hall). rewrite Hs in IH. specialize (IH Hq).
  destruct (decode_all wrap s1 rest) as [s2 rcs]. cbn [fst] in *. exact IH.
Qed.

Lemma delta_frames_inherit_the_frame_size_witness :
  let s := fst (Decode nonempty_size_ok sample_decoder (key_image 0) false 0) in
  let s' := fst (decode_all nonempty_size_ok s
                   [(delta_image 1, false, 0); (delta_image 2, false, 0)]) in
  frame_size_ s' = {| gfx.width := 640; gfx.height := 480 |} /\
  Forall (fun f => media.coded_size f
                   = {| gfx.width := 640; gfx.height := 480 |})
    (pending_frames_ s') /\
  length (pending_frames_ s') = 3%nat.
Proof.
  intros s s'.
  assert (Hall : forallb (fun c => negb (is_key_frame (fst (fst c))))
                   [(delta_image 1, false, 0); (delta_image 2, false, 0)]
                 = true) by reflexivity.
  assert (Hp : Forall (fun f => media.coded_size f = frame_size_ s)
                 (pending_frames_ s))
    by (vm_compute; repeat constructor).
  destruct (delta_frames_inherit_the_frame_size nonempty_size_ok _ s Hall Hp)
    as [H1 H2].
  split; [exact H1|]. split; [exact H2|]. vm_compute. reflexivity.
Defined.

(** * Properties of the player's frame path *)

Lemma skipn_length_app {A : Type} (l x : list A) :
  skipn (length l) (l ++ x) = x.
Proof.
  rewrite skipn_app, skipn_all, Nat.sub_diag. reflexivity.
Qed.

Lemma VideoCodec_eqb_eq (a b : media.VideoCodec) :
  VideoCodec_eqb a b = true <-> a = b.
Proof. destruct a, b; cbn; split; intro H; congruence. Qed.

Lemma relay_status_cb_app (es1 es2 : list WebMediaPlayerWebRTC.Effect)
    (s : Decoder) :
  relay_status_cb (es1 ++ es2) s
  = relay_status_cb es2 (relay_status_cb es1 s).
Proof. unfold relay_status_cb. apply fold_left_app. Qed.

Lemma StartMediaPipeline_frame
    (p : WebMediaPlayerWebRTC.Player) (f : media.VideoFrame) (created : bool) :
  let p1 := WebMediaPlayerWebRTC.StartMediaPipeline p f created in
  WebMediaPlayerWebRTC.pipeline_running_ p1
  = WebMediaPlayerWebRTC.pipeline_running_ p /\
  WebMediaPlayerWebRTC.pipeline_status_ p1
  = WebMediaPlayerWebRTC.pipeline_status_ p /\
  WebMediaPlayerWebRTC.pending_encoded_frames_ p1
  = WebMediaPlayerWebRTC.pending_encoded_frames_ p /\
  WebMediaPlayerWebRTC.start_timestamp_ p1
  = WebMediaPlayerWebRTC.start_timestamp_ p /\
  WebMediaPlayerWebRTC.media_player_status_cb_ p1
  = WebMediaPlayerWebRTC.media_player_status_cb_ p.
Proof.
  unfold WebMediaPlayerWebRTC.StartMediaPipeline,
    WebMediaPlayerWebRTC.CreateMediaPlatformAPI,
    WebMediaPlayerWebRTC.DestroyMediaPlatformAPI,
    WebMediaPlayerWebRTC.run_status_cb.
  cbv zeta.
  repeat match goal with
         | |- context [if ?b then _ else _] => destruct b
         | |- context [match ?o with Some _ => _ | None => _ end] =>
             destruct o eqn:?
         end; cbn; repeat split; congruence.
Qed.

(** ** Pipeline errors *)



(** X15: a pipeline error with status PIPELINE_ERROR_ABORT or
    DECODER_ERROR_RESOURCE_IS_RELEASED reaches the decoder.  When the player
    holds the decoder's status callback and is not being destroyed,
    [OnPipelineError] with one of these two statuses runs the callback with
    kPipelineError, after which the decoder is unavailable and every
    [Decode] returns FALLBACK_SOFTWARE; with any other status the callback
    is not run and the decoder is left as it is. *)
Theorem pipeline_error_reaches_the_decoder :
  forall (WrapExternalData_ok : gfx.Size -> EncodedImage -> bool)
         (p : WebMediaPlayerWebRTC.Player)
         (status : WebMediaPlayerWebRTC.PipelineStatus)
         (cb : WebMediaPlayerWebRTC.StatusCb) (s : Decoder),
    WebMediaPlayerWebRTC.media_player_status_cb_ p = Some cb ->
    WebMediaPlayerWebRTC.is_destroying_ p = false ->
    let p1 := WebMediaPlayerWebRTC.OnPipelineError p status in
    let s1 := relay_status_cb (WebMediaPlayerWebRTC.new_effects p p1) s in
    (status = WebMediaPlayerWebRTC.PIPELINE_ERROR_ABORT \/
     status = WebMediaPlayerWebRTC.DECODER_ERROR_RESOURCE_IS_RELEASED ->
     In (WebMediaPlayerWebRTC.StatusCbRun cb media.kPipelineError)
       (WebMediaPlayerWebRTC.new_effects p p1) /\
     media_decoder_available_ s1 = false /\
     forall img missing render,
       Decode WrapExternalData_ok s1 img missing render
       = (s1, WEBRTC_VIDEO_CODEC_FALLBACK_SOFTWARE)) /\
    (status <> WebMediaPlayerWebRTC.PIPELINE_ERROR_ABORT ->
     status <> WebMediaPlayerWebRTC.DECODER_ERROR_RESOURCE_IS_RELEASED ->
     s1 = s).
Proof.
  intros wrap p status cb s Hcb Hd p1 s1.
  assert (E : exists before,
             WebMediaPlayerWebRTC.new_effects p p1
             = before
               ++ (if WebMediaPlayerWebRTC.PipelineStatus_eqb status
                        WebMediaPlayerWebRTC.PIPELINE_ERROR_ABORT
                      || WebMediaPlayerWebRTC.PipelineStatus_eqb status
                           WebMediaPlayerWebRTC.DECODER_ERROR_RESOURCE_IS_RELEASED
                   then [WebMediaPlayerWebRTC.StatusCbRun cb
                           media.kPipelineError]
                   else [])
               ++ [WebMediaPlayerWebRTC.ReplaceCurrentFrameWithACopy;
                   WebMediaPlayerWebRTC.SetNetworkState status;
                   WebMediaPlayerWebRTC.RepaintInternal] /\
             (before = [] \/
              before = [WebMediaPlayerWebRTC.DidMediaActivated])).
  { subst p1. unfold WebMediaPlayerWebRTC.new_effects,
      WebMediaPlayerWebRTC.OnPipelineError, WebMediaPlayerWebRTC.emit.
    destruct (WebMediaPlayerWebRTC.is_loading_ p);
      [exists [WebMediaPlayerWebRTC.DidMediaActivated] | exists []];
      cbn; rewrite Hd, Hcb;
      destruct (WebMediaPlayerWebRTC.PipelineStatus_eqb status
                  WebMediaPlayerWebRTC.PIPELINE_ERROR_ABORT
                || WebMediaPlayerWebRTC.PipelineStatus_eqb status
                     WebMediaPlayerWebRTC.DECODER_ERROR_RESOURCE_IS_RELEASED);
      cbn; rewrite <- !app_assoc, skipn_length_app; cbn;
      (split; [reflexivity|]); auto. }
  destruct E as (before & E & Hb).
  assert (Rb : relay_status_cb before s = s)
    by (destruct Hb as [-> | ->]; reflexivity).
  subst s1. rewrite E, !relay_status_cb_app, Rb. split.
  - intros Hst.
    assert (C : WebMediaPlayerWebRTC.PipelineStatus_eqb status
                  WebMediaPlayerWebRTC.PIPELINE_ERROR_ABORT
                || WebMediaPlayerWebRTC.PipelineStatus_eqb status
                     WebMediaPlayerWebRTC.DECODER_ERROR_RESOURCE_IS_RELEASED
                = true) by (destruct Hst as [-> | ->]; reflexivity).
    rewrite C. split; [|split].
    + apply in_or_app. right. now left.
    + reflexivity.
    + intros. now apply Decode_unavailable.
  - intros H1 H2.
    replace (WebMediaPlayerWebRTC.PipelineStatus_eqb status
               WebMediaPlayerWebRTC.PIPELINE_ERROR_ABORT
             || WebMediaPlayerWebRTC.PipelineStatus_eqb status
                  WebMediaPlayerWebRTC.DECODER_ERROR_RESOURCE_IS_RELEASED)
      with false by (destruct status; try reflexivity; contradiction).
    reflexivity.
Qed.

Lemma pipeline_error_reaches_the_decoder_witness :
  let p1 := WebMediaPlayerWebRTC.OnPipelineError listening_player
              WebMediaPlayerWebRTC.DECODER_ERROR_RESOURCE_IS_RELEASED in
  let s1 := relay_status_cb
              (WebMediaPlayerWebRTC.new_effects listening_player p1)
              full_decoder in
  Decode nonempty_size_ok s1 (key_image 9) false 0
  = (s1, WEBRTC_VIDEO_CODEC_FALLBACK_SOFTWARE).
Proof.
  intros p1 s1.
  assert (Hcb : WebMediaPlayerWebRTC.media_player_status_cb_ listening_player
                = Some 1%nat) by reflexivity.
  assert (Hd : WebMediaPlayerWebRTC.is_destroying_ listening_player = false)
    by reflexivity.
  destruct (pipeline_error_reaches_the_decoder nonempty_size_ok
              listening_player
              WebMediaPlayerWebRTC.DECODER_ERROR_RESOURCE_IS_RELEASED
              1%nat full_decoder Hcb Hd) as [H _].
  destruct (H (or_intror eq_refl)) as (_ & _ & D).
  apply D.
Defined.

(** ** Frames waiting for the pipeline *)

Lemma feed_loop_frame (frames : list media.VideoFrame) :
  forall p p',
    WebMediaPlayerWebRTC.feed_loop frames p = Some p' ->
    WebMediaPlayerWebRTC.pending_encoded_frames_ p'
    = WebMediaPlayerWebRTC.pending_encoded_frames_ p /\
    WebMediaPlayerWebRTC.pipeline_running_ p'
    = WebMediaPlayerWebRTC.pipeline_running_ p /\
    WebMediaPlayerWebRTC.media_player_status_cb_ p'
    = WebMediaPlayerWebRTC.media_player_status_cb_ p /\
    WebMediaPlayerWebRTC.effects p'
    = WebMediaPlayerWebRTC.effects p
      ++ map (fun f => WebMediaPlayerWebRTC.ApiFeed
                         (WebMediaPlayerWebRTC.buffer_of f)) frames.
Proof.
  induction frames as [|f rest IH]; intros p p' H.
  - injection H as <-. rewrite app_nil_r. repeat split.
  - cbn [WebMediaPlayerWebRTC.feed_loop] in H.
    destruct (WebMediaPlayerWebRTC.media_platform_api_ p); [|discriminate].
    apply IH in H. destruct H as (H1 & H2 & H3 & H4).
    rewrite H1, H2, H3, H4. cbn. rewrite <- app_assoc. repeat split.
Qed.

Lemma feed_loop_with_api (frames : list media.VideoFrame) :
  forall p,
    WebMediaPlayerWebRTC.media_platform_api_ p = true ->
    exists p', WebMediaPlayerWebRTC.feed_loop frames p = Some p'.
Proof.
  induction frames as [|f rest IH]; intros p H; [now exists p|].
  cbn [WebMediaPlayerWebRTC.feed_loop]. rewrite H. apply IH. exact H.
Qed.


(** [HandleEncodedFrame] on a player whose pipeline status is OK. *)
Lemma HandleEncodedFrame_ok (kNo : Z) (sub : Z -> Z -> Z)
    (p : WebMediaPlayerWebRTC.Player) (f : media.VideoFrame) (created : bool) :
  WebMediaPlayerWebRTC.pipeline_status_ p = WebMediaPlayerWebRTC.PIPELINE_OK ->
  let p' := WebMediaPlayerWebRTC.HandleEncodedFrame kNo sub p f created in
  let restart := negb (WebMediaPlayerWebRTC.pipeline_running_ p)
                 && media.KEY_FRAME f in
  let start := if restart then media.timestamp f
               else if WebMediaPlayerWebRTC.start_timestamp_ p =? kNo
                    then media.timestamp f
                    else WebMediaPlayerWebRTC.start_timestamp_ p in
  WebMediaPlayerWebRTC.pipeline_running_ p'
  = WebMediaPlayerWebRTC.pipeline_running_ p /\
  WebMediaPlayerWebRTC.pipeline_status_ p' = WebMediaPlayerWebRTC.PIPELINE_OK /\
  WebMediaPlayerWebRTC.media_player_status_cb_ p'
  = WebMediaPlayerWebRTC.media_player_status_cb_ p /\
  WebMediaPlayerWebRTC.start_timestamp_ p' = start /\
  WebMediaPlayerWebRTC.pending_encoded_frames_ p'
  = if restart then [WebMediaPlayerWebRTC.set_timestamp f 0]
    else WebMediaPlayerWebRTC.pending_encoded_frames_ p
         ++ [WebMediaPlayerWebRTC.set_timestamp f
               (sub (media.timestamp f) start)].
Proof.
  intros Hs. unfold WebMediaPlayerWebRTC.HandleEncodedFrame.
  rewrite Hs. cbn [WebMediaPlayerWebRTC.PipelineStatus_eqb negb]. cbv zeta.
  destruct (StartMediaPipeline_frame p f created) as (R & S & P & T & C).
  cbv zeta in R, S, P, T, C.
  set (p1 := WebMediaPlayerWebRTC.StartMediaPipeline p f created) in *.
  clearbody p1. rewrite <- R, <- P, <- T, <- C, <- Hs, <- S.
  destruct (WebMediaPlayerWebRTC.pipeline_running_ p1) eqn:Run;
    destruct (media.KEY_FRAME f);
    destruct (WebMediaPlayerWebRTC.start_timestamp_ p1 =? kNo) eqn:N;
    cbn; rewrite ?Run, ?N; cbn; repeat split; assumption.
Qed.



(** X17: [OnPipelineFeed] feeds the platform API every pending frame, in
    the order in which the frames were pushed, each as a buffer with the
    frame's data, timestamp and key-frame flag, and leaves nothing pending;
    on a player that is being destroyed it does nothing. *)
Theorem feed_is_fifo :
  forall p : WebMediaPlayerWebRTC.Player,
    (WebMediaPlayerWebRTC.is_destroying_ p = true ->
     WebMediaPlayerWebRTC.OnPipelineFeed p = Some p) /\
    (WebMediaPlayerWebRTC.is_destroying_ p = false ->
     WebMediaPlayerWebRTC.media_platform_api_ p = true ->
     exists p',
       WebMediaPlayerWebRTC.OnPipelineFeed p = Some p' /\
       WebMediaPlayerWebRTC.new_effects p p'
       = map (fun f => WebMediaPlayerWebRTC.ApiFeed
                         {| WebMediaPlayerWebRTC.buffer_data :=
                              media.frame_data f;
                            WebMediaPlayerWebRTC.buffer_timestamp :=
                              media.timestamp f;
                            WebMediaPlayerWebRTC.buffer_is_key_frame :=
                              media.KEY_FRAME f |})
           (WebMediaPlayerWebRTC.pending_encoded_frames_ p) /\
       WebMediaPlayerWebRTC.pending_encoded_frames_ p' = []).
Proof.
  intro p. unfold WebMediaPlayerWebRTC.OnPipelineFeed. split.
  - intro H. now rewrite H.
  - intros Hd Hapi. rewrite Hd.
    destruct (feed_loop_with_api
                (WebMediaPlayerWebRTC.pending_encoded_frames_ p)
                (WebMediaPlayerWebRTC.set_pending_encoded_frames p []) Hapi)
      as [p' E].
    exists p'. split; [exact E|].
    apply feed_loop_frame in E. destruct E as (E1 & _ & _ & E4).
    split; [|exact E1].
    unfold WebMediaPlayerWebRTC.new_effects. rewrite E4. cbn.
    apply skipn_length_app.
Qed.

Lemma feed_is_fifo_witness :
  exists p',
    WebMediaPlayerWebRTC.OnPipelineFeed fed_player = Some p' /\
    map (fun e => match e with
                  | WebMediaPlayerWebRTC.ApiFeed b =>
                      WebMediaPlayerWebRTC.buffer_timestamp b
                  | _ => -1
                  end) (WebMediaPlayerWebRTC.new_effects fed_player p')
    = [0; 33].
Proof.
  destruct (feed_is_fifo fed_player) as [_ H].
  destruct H as (p' & E & F & _);
    [vm_compute; reflexivity | vm_compute; reflexivity |].
  exists p'. split; [exact E|]. rewrite F. vm_compute. reflexivity.
Defined.

(** ** Timestamps of the frames fed *)

Lemma handle_all_deltas (kNo : Z) (sub : Z -> Z -> Z)
    (deltas : list (media.VideoFrame * bool)) :
  forall p,
    WebMediaPlayerWebRTC.pipeline_status_ p = WebMediaPlayerWebRTC.PIPELINE_OK ->
    WebMediaPlayerWebRTC.start_timestamp_ p <> kNo ->
    Forall (fun c => media.KEY_FRAME (fst c) = false) deltas ->
    let p' := WebMediaPlayerWebRTC.handle_all kNo sub p deltas in
    WebMediaPlayerWebRTC.start_timestamp_ p'
    = WebMediaPlayerWebRTC.start_timestamp_ p /\
    WebMediaPlayerWebRTC.pending_encoded_frames_ p'
    = WebMediaPlayerWebRTC.pending_encoded_frames_ p
      ++ map (fun c => WebMediaPlayerWebRTC.set_timestamp (fst c)
                         (sub (media.timestamp (fst c))
                            (WebMediaPlayerWebRTC.start_timestamp_ p)))
           deltas.
Proof.
  induction deltas as [|[f created] rest IH]; intros p Hs Hn Hall.
  - cbn. rewrite app_nil_r. now split.
  - inversion Hall as [|x l Hf Hrest]; subst. cbn [fst] in Hf.
    cbn [WebMediaPlayerWebRTC.handle_all].
    destruct (HandleEncodedFrame_ok kNo sub p f created Hs)
      as (_ & S & _ & T & P).
    rewrite Hf, andb_false_r in T, P.
    apply Z.eqb_neq in Hn. rewrite Hn in T, P.
    apply Z.eqb_neq in Hn.
    destruct (IH (WebMediaPlayerWebRTC.HandleEncodedFrame kNo sub p f created)
                S) as (T' & P'); [now rewrite T | exact Hrest |].
    cbv zeta in T', P'. rewrite T', P', T, P, <- app_assoc. now split.
Qed.

(** X18: frames are stamped relative to the key frame.  On a player whose
    pipeline status is OK and whose pipeline is not yet running, a key frame
    followed by frames that are not key frames leaves exactly these frames
    pending, in order: the key frame stamped zero, and each later frame
    stamped with its own timestamp minus the key frame's (provided the key
    frame's timestamp is not [kNoTimestamp]). *)
Theorem frames_are_stamped_relative_to_the_key_frame :
  forall (kNoTimestamp : Z) (TimeDelta_minus : Z -> Z -> Z)
         (p : WebMediaPlayerWebRTC.Player)
         (key_frame : media.VideoFrame) (created : bool)
         (deltas : list (media.VideoFrame * bool)),
    WebMediaPlayerWebRTC.pipeline_status_ p = WebMediaPlayerWebRTC.PIPELINE_OK ->
    WebMediaPlayerWebRTC.pipeline_running_ p = false ->
    media.KEY_FRAME key_frame = true ->
    media.timestamp key_frame <> kNoTimestamp ->
    Forall (fun c => media.KEY_FRAME (fst c) = false) deltas ->
    let p' := WebMediaPlayerWebRTC.handle_all kNoTimestamp TimeDelta_minus p
                ((key_frame, created) :: deltas) in
    WebMediaPlayerWebRTC.start_timestamp_ p' = media.timestamp key_frame /\
    WebMediaPlayerWebRTC.pending_encoded_frames_ p'
    = WebMediaPlayerWebRTC.set_timestamp key_frame 0
      :: map (fun c => WebMediaPlayerWebRTC.set_timestamp (fst c)
                         (TimeDelta_minus (media.timestamp (fst c))
                            (media.timestamp key_frame)))
           deltas.
Proof.
  intros kNo sub p k created deltas Hs Hr Hk Hn Hall p'. subst p'.
  cbn [WebMediaPlayerWebRTC.handle_all].
  destruct (HandleEncodedFrame_ok kNo sub p k created Hs)
    as (_ & S & _ & T & P).
  rewrite Hr, Hk in T, P. cbn in T, P.
  destruct (handle_all_deltas kNo sub deltas
              (WebMediaPlayerWebRTC.HandleEncodedFrame kNo sub p k created) S)
    as (T' & P'); [now rewrite T | exact Hall |].
  cbv zeta in T', P'. rewrite T', P', T, P. now split.
Qed.

Lemma frames_are_stamped_relative_to_the_key_frame_witness :
  map media.timestamp
    (WebMediaPlayerWebRTC.pending_encoded_frames_
       (WebMediaPlayerWebRTC.handle_all (- 2 ^ 63) Z.sub listening_player
          [(sample_key_frame 1000, true); (sample_delta_frame 1033, true);
           (sample_delta_frame 1066, false)]))
  = [0; 33; 66].
Proof.
  assert (Hs : WebMediaPlayerWebRTC.pipeline_status_ listening_player
               = WebMediaPlayerWebRTC.PIPELINE_OK) by reflexivity.
  assert (Hr : WebMediaPlayerWebRTC.pipeline_running_ listening_player = false)
    by reflexivity.
  assert (Hk : media.KEY_FRAME (sample_key_frame 1000) = true) by reflexivity.
  assert (Hn : media.timestamp (sample_key_frame 1000) <> - 2 ^ 63)
    by (vm_compute; discriminate).
  assert (Hall : Forall (fun c => media.KEY_FRAME (fst c) = false)
                   [(sample_delta_frame 1033, true);
                    (sample_delta_frame 1066, false)])
    by (repeat constructor).
  destruct (frames_are_stamped_relative_to_the_key_frame (- 2 ^ 63) Z.sub
              listening_player (sample_key_frame 1000) true _ Hs Hr Hk Hn Hall)
    as [_ P].
  rewrite P. vm_compute. reflexivity.
Defined.

(** ** Key-frame requests *)

(** X19: only a key frame starts the pipeline.  [StartMediaPipeline] on a
    frame that is not a key frame never creates a platform API and never
    changes the player's codec; when no platform API for the frame's codec
    exists it asks for a key frame through the status callback, which sets
    the decoder's key-frame requirement, so that the decoder rejects frames
    that are not key frames from then on. *)
Theorem only_a_key_frame_starts_the_pipeline :
  forall (WrapExternalData_ok : gfx.Size -> EncodedImage -> bool)
         (p : WebMediaPlayerWebRTC.Player) (input_frame : media.VideoFrame)
         (created : bool) (cb : WebMediaPlayerWebRTC.StatusCb) (s : Decoder),
    media.KEY_FRAME input_frame = false ->
    WebMediaPlayerWebRTC.media_player_status_cb_ p = Some cb ->
    let p1 := WebMediaPlayerWebRTC.StartMediaPipeline p input_frame created in
    let s1 := relay_status_cb (WebMediaPlayerWebRTC.new_effects p p1) s in
    WebMediaPlayerWebRTC.media_platform_api_ p1
    = WebMediaPlayerWebRTC.media_platform_api_ p /\
    WebMediaPlayerWebRTC.video_codec_ p1 = WebMediaPlayerWebRTC.video_codec_ p /\
    (WebMediaPlayerWebRTC.media_platform_api_ p = false \/
     WebMediaPlayerWebRTC.video_codec_ p <> media.CODEC_ID input_frame ->
     WebMediaPlayerWebRTC.new_effects p p1
     = [WebMediaPlayerWebRTC.StatusCbRun cb media.kKeyFrameRequest] /\
     key_frame_required_ s1 = true /\
     forall img missing render,
       is_key_frame img = false ->
       fst (Decode WrapExternalData_ok s1 img missing render) = s1 /\
       snd (Decode WrapExternalData_ok s1 img missing render)
       <> WEBRTC_VIDEO_CODEC_OK).
Proof.
  intros wrap p f created cb s Hk Hcb p1 s1.
  subst s1 p1. unfold WebMediaPlayerWebRTC.StartMediaPipeline,
    WebMediaPlayerWebRTC.run_status_cb.
  rewrite Hk, Hcb. cbn [negb].
  destruct (WebMediaPlayerWebRTC.media_platform_api_ p
            && VideoCodec_eqb (WebMediaPlayerWebRTC.video_codec_ p)
                 (media.CODEC_ID f)) eqn:G.
  - split; [reflexivity|]. split; [reflexivity|].
    intros [H | H].
    + rewrite H in G. discriminate.
    + apply andb_true_iff in G as [_ G]. apply VideoCodec_eqb_eq in G.
      contradiction.
  - split; [reflexivity|]. split; [reflexivity|]. intros _.
    unfold WebMediaPlayerWebRTC.new_effects. cbn.
    rewrite skipn_length_app. split; [reflexivity|]. cbn.
    split; [reflexivity|]. intros img missing render Hi.
    match goal with
    | |- context [Decode wrap ?st img missing render] =>
        rewrite (Decode_nonkey_while_required wrap st img missing render
                   eq_refl Hi)
    end.
    split; [reflexivity|]. cbn [snd].
    match goal with
    | |- (if ?b then _ else _) <> _ => destruct b
    end; discriminate.
Qed.

Lemma only_a_key_frame_starts_the_pipeline_witness :
  let p1 := WebMediaPlayerWebRTC.StartMediaPipeline listening_player
              (sample_delta_frame 43) true in
  let s1 := relay_status_cb
              (WebMediaPlayerWebRTC.new_effects listening_player p1)
              full_decoder in
  WebMediaPlayerWebRTC.media_platform_api_ p1 = false /\
  key_frame_required_ s1 = true /\
  snd (Decode nonempty_size_ok s1 (delta_image 9) false 0)
  <> WEBRTC_VIDEO_CODEC_OK.
Proof.
  intros p1 s1.
  assert (Hk : media.KEY_FRAME (sample_delta_frame 43) = false)
    by reflexivity.
  assert (Hcb : WebMediaPlayerWebRTC.media_player_status_cb_ listening_player
                = Some 1%nat) by reflexivity.
  destruct (only_a_key_frame_starts_the_pipeline nonempty_size_ok
              listening_player (sample_delta_frame 43) true 1%nat
              full_decoder Hk Hcb) as (A & _ & H).
  destruct (H (or_introl eq_refl)) as (_ & K & D).
  subst p1 s1. split; [rewrite A; reflexivity|]. split; [exact K|].
  apply (D (delta_image 9) false 0 eq_refl).
Defined.

(** X20: suspend and resume.  While the player is suspended,
    [HandleVideoFrame] accepts an encoded frame (returns true) but throws it
    and everything pending away and posts nothing.  [ResumeInternal] on a
    suspended player that holds the status callback ends the suspension and
    asks for a key frame, which sets the decoder's key-frame requirement and
    changes nothing else of the decoder; on a player that is not suspended
    it does nothing. *)
Theorem resume_requests_a_key_frame :
  forall (p : WebMediaPlayerWebRTC.Player)
         (cb : WebMediaPlayerWebRTC.StatusCb) (s : Decoder),
    WebMediaPlayerWebRTC.media_player_status_cb_ p = Some cb ->
    (WebMediaPlayerWebRTC.is_suspended_ p = true ->
     (forall frame frame_cb,
         let r := WebMediaPlayerWebRTC.HandleVideoFrame p
                    (WebMediaPlayerWebRTC.EncodedVideoFrame frame frame_cb) in
         snd r = true /\
         WebMediaPlayerWebRTC.pending_encoded_frames_ (fst r) = [] /\
         WebMediaPlayerWebRTC.effects (fst r) = WebMediaPlayerWebRTC.effects p)
     /\
     let p1 := WebMediaPlayerWebRTC.ResumeInternal p in
     WebMediaPlayerWebRTC.is_suspended_ p1 = false /\
     In (WebMediaPlayerWebRTC.StatusCbRun cb media.kKeyFrameRequest)
       (WebMediaPlayerWebRTC.new_effects p p1) /\
     relay_status_cb (WebMediaPlayerWebRTC.new_effects p p1) s
     = set_key_frame_required s true) /\
    (WebMediaPlayerWebRTC.is_suspended_ p = false ->
     WebMediaPlayerWebRTC.ResumeInternal p = p).
Proof.
  intros p cb s Hcb. split.
  - intro Hs. split.
    + intros frame fcb. cbn. rewrite Hcb. cbn. rewrite Hs. cbn.
      repeat split.
    + unfold WebMediaPlayerWebRTC.ResumeInternal,
        WebMediaPlayerWebRTC.run_status_cb,
        WebMediaPlayerWebRTC.new_effects.
      rewrite Hs. cbn. rewrite Hcb. cbn.
      destruct (WebMediaPlayerWebRTC.media_platform_api_ p); cbn;
        rewrite <- app_assoc, skipn_length_app; cbn;
        (split; [reflexivity|]); (split; [now left | reflexivity]).
  - intro Hs. unfold WebMediaPlayerWebRTC.ResumeInternal. now rewrite Hs.
Qed.

Lemma resume_requests_a_key_frame_witness :
  let p1 := WebMediaPlayerWebRTC.ResumeInternal suspended_player in
  WebMediaPlayerWebRTC.is_suspended_ p1 = false /\
  key_frame_required_
    (relay_status_cb (WebMediaPlayerWebRTC.new_effects suspended_player p1)
       full_decoder) = true.
Proof.
  intro p1.
  assert (Hcb : WebMediaPlayerWebRTC.media_player_status_cb_ suspended_player
                = Some 1%nat) by reflexivity.
  destruct (resume_requests_a_key_frame suspended_player 1%nat full_decoder
              Hcb) as [H _].
  destruct (H eq_refl) as (_ & S & _ & R).
  split; [exact S|]. unfold p1. rewrite R. reflexivity.
Defined.

(** ** Codec and profile *)



(** ** The status callback *)

Lemma step_keeps_status_cb (kNo : Z) (sub : Z -> Z -> Z)
    (p : WebMediaPlayerWebRTC.Player) (a : WebMediaPlayerWebRTC.Action)
    (p' : WebMediaPlayerWebRTC.Player) (cb : WebMediaPlayerWebRTC.StatusCb) :
  WebMediaPlayerWebRTC.media_player_status_cb_ p = Some cb ->
  WebMediaPlayerWebRTC.step kNo sub p a = Some p' ->
  WebMediaPlayerWebRTC.media_player_status_cb_ p' = Some cb.
Proof.
  intros Hcb E. destruct a; cbn [WebMediaPlayerWebRTC.step] in E.
  - injection E as <-. destruct video_frame as [|frame fcb]; cbn;
      [exact Hcb|]. rewrite Hcb.
    destruct (WebMediaPlayerWebRTC.is_suspended_ _); cbn; exact Hcb.
  - injection E as <-.
    destruct (WebMediaPlayerWebRTC.PipelineStatus_eqb
                (WebMediaPlayerWebRTC.pipeline_status_ p)
                WebMediaPlayerWebRTC.PIPELINE_OK) eqn:Hs.
    + assert (Hs' : WebMediaPlayerWebRTC.pipeline_status_ p
                    = WebMediaPlayerWebRTC.PIPELINE_OK)
        by (destruct (WebMediaPlayerWebRTC.pipeline_status_ p);
            try discriminate; reflexivity).
      destruct (HandleEncodedFrame_ok kNo sub p encoded_frame created Hs')
        as (_ & _ & C & _). now rewrite C.
    + unfold WebMediaPlayerWebRTC.HandleEncodedFrame. now rewrite Hs.
  - unfold WebMediaPlayerWebRTC.InitMediaPlatformAPI in E.
    destruct (WebMediaPlayerWebRTC.media_platform_api_ p); [|discriminate].
    injection E as <-. exact Hcb.
  - unfold WebMediaPlayerWebRTC.OnPipelineFeed in E.
    destruct (WebMediaPlayerWebRTC.is_destroying_ p).
    + injection E as <-. exact Hcb.
    + apply feed_loop_frame in E. destruct E as (_ & _ & E & _).
      now rewrite E.
  - injection E as <-.
    unfold WebMediaPlayerWebRTC.OnMediaPlatformAPIInitialized.
    destruct (WebMediaPlayerWebRTC.is_destroying_ p
              || negb (WebMediaPlayerWebRTC.media_platform_api_ p));
      exact Hcb.
  - injection E as <-. unfold WebMediaPlayerWebRTC.OnPipelineError.
    destruct (WebMediaPlayerWebRTC.is_loading_ p); cbn;
      destruct (WebMediaPlayerWebRTC.is_destroying_ p); cbn;
      try exact Hcb; rewrite Hcb;
      repeat match goal with
             | |- context [if ?b then _ else _] => destruct b
             end; cbn; exact Hcb.
  - injection E as <-. cbn.
    unfold WebMediaPlayerWebRTC.DestroyMediaPlatformAPI. cbn.
    destruct (WebMediaPlayerWebRTC.media_platform_api_ p); cbn; exact Hcb.
  - injection E as <-. unfold WebMediaPlayerWebRTC.SuspendInternal.
    destruct (WebMediaPlayerWebRTC.is_suspended_ p); [exact Hcb|].
    cbv zeta.
    repeat match goal with
           | |- context [if ?b then _ else _] => destruct b
           end; cbn; exact Hcb.
  - injection E as <-. unfold WebMediaPlayerWebRTC.ResumeInternal,
      WebMediaPlayerWebRTC.run_status_cb.
    destruct (WebMediaPlayerWebRTC.is_suspended_ p); cbn; [|exact Hcb].
    rewrite Hcb. cbn.
    destruct (WebMediaPlayerWebRTC.media_platform_api_ p); cbn; exact Hcb.
Qed.

(** X22: the player keeps the first status callback it sees.  A raw frame
    is handed back ([HandleVideoFrame] returns false) and changes nothing
    but the compositor type; the first encoded frame that carries a status
    callback sets [media_player_status_cb_], and from then on no step of the
    frame path changes it, whatever callbacks later frames carry. *)
Theorem the_first_status_callback_is_kept :
  forall (kNoTimestamp : Z) (TimeDelta_minus : Z -> Z -> Z)
         (p0 : WebMediaPlayerWebRTC.Player) (frame : media.VideoFrame)
         (cb : WebMediaPlayerWebRTC.StatusCb)
         (actions : list WebMediaPlayerWebRTC.Action)
         (p : WebMediaPlayerWebRTC.Player),
    WebMediaPlayerWebRTC.media_player_status_cb_ p0 = None ->
    WebMediaPlayerWebRTC.exec kNoTimestamp TimeDelta_minus
      (fst (WebMediaPlayerWebRTC.HandleVideoFrame p0
              (WebMediaPlayerWebRTC.EncodedVideoFrame frame (Some cb))))
      actions = Some p ->
    WebMediaPlayerWebRTC.media_player_status_cb_ p = Some cb /\
    WebMediaPlayerWebRTC.HandleVideoFrame p0 WebMediaPlayerWebRTC.RawVideoFrame
    = (WebMediaPlayerWebRTC.set_compositor_type p0
         WebMediaPlayerWebRTC.kWebMediaPlayerMSCompositor, false).
Proof.
  intros kNo sub p0 frame cb actions p H0 Hexec. split; [|reflexivity].
  assert (G : forall acts q q',
             WebMediaPlayerWebRTC.media_player_status_cb_ q = Some cb ->
             WebMediaPlayerWebRTC.exec kNo sub q acts = Some q' ->
             WebMediaPlayerWebRTC.media_player_status_cb_ q' = Some cb).
  { induction acts as [|a rest IH]; intros q q' Hq E.
    - injection E as <-. exact Hq.
    - cbn [WebMediaPlayerWebRTC.exec] in E.
      destruct (WebMediaPlayerWebRTC.step kNo sub q a) as [q1|] eqn:S;
        [|discriminate].
      eapply IH; [|exact E]. eapply step_keeps_status_cb; eassumption. }
  refine (G actions _ p _ Hexec).
  cbn. rewrite H0. cbn.
  destruct (WebMediaPlayerWebRTC.is_suspended_ p0); reflexivity.
Qed.

Lemma the_first_status_callback_is_kept_witness :
  exists p,
    WebMediaPlayerWebRTC.exec (- 2 ^ 63) Z.sub listening_player
      (WebMediaPlayerWebRTC.CallHandleVideoFrame
         (WebMediaPlayerWebRTC.EncodedVideoFrame (sample_key_frame 20)
            (Some 2%nat)) :: sample_player_actions) = Some p /\
    WebMediaPlayerWebRTC.media_player_status_cb_ p = Some 1%nat.
Proof.
  destruct (WebMediaPlayerWebRTC.exec (- 2 ^ 63) Z.sub listening_player
              (WebMediaPlayerWebRTC.CallHandleVideoFrame
                 (WebMediaPlayerWebRTC.EncodedVideoFrame (sample_key_frame 20)
                    (Some 2%nat)) :: sample_player_actions))
    as [p|] eqn:E; [|vm_compute in E; discriminate].
  exists p. split; [reflexivity|].
  destruct (the_first_status_callback_is_kept (- 2 ^ 63) Z.sub
              WebMediaPlayerWebRTC.sample_player (sample_key_frame 10)
              1%nat _ p eq_refl E) as [H _].
  exact H.
Defined.
